(** * LibVault backend: a shallow embedding of [main.py] and [schemas.py]

    The handlers of [main.py] are embedded as functions over explicit
    inputs: the request payload, the module-level handle [db], the state
    of the document store and, where the code reads the clock, the current
    time.  A handler that can raise returns a [result].

    [main.py] imports [db], [create_document] and [get_documents] from a
    module [database] whose source is not available.  The handlers are
    therefore written against an interface ([Adapter] and [Database]); one
    instance of the adapter, [spec_adapter], is modelled from the
    specification of the document store. *)

From Stdlib Require Import ZArith NArith String Ascii List Lia.
From stdpp Require Import base option list strings gmap fin_maps.

Local Open Scope string_scope.
Local Open Scope Z_scope.

(** ** Exceptions and results *)

Inductive exn_class :=
| StoreUnavailable
| InvalidArgument
| KeyError
| AttributeError
| TypeError
| OverflowError
| OtherError (name : string).

(** Every exception modelled here derives from Python's [Exception], so an
    [except Exception] clause catches each of them.  What is raised outside
    that class ([SystemExit], [KeyboardInterrupt]) is not modelled: no
    [except Exception] clause catches it. *)
Inductive exn :=
| Exn (cls : exn_class) (msg : string)
| HTTPException (status_code : Z) (detail : string).

(** [str(e)] *)
Definition exn_str (e : exn) : string :=
  match e with
  | Exn _ msg => msg
  | HTTPException _ detail => detail
  end.

Inductive result (A : Type) :=
| Ok (a : A)
| Raise (e : exn).
Arguments Ok {A} a.
Arguments Raise {A} e.

#[global] Instance result_ret : MRet result := @Ok.
#[global] Instance result_bind : MBind result :=
  λ A B f m, match m with Ok a => f a | Raise e => Raise e end.
#[global] Instance result_fmap : FMap result :=
  λ A B f m, match m with Ok a => Ok (f a) | Raise e => Raise e end.

(** [try: body  except Exception: handler] *)
Definition try_except {A} (body : result A) (handler : exn → result A) : result A :=
  match body with
  | Ok a => Ok a
  | Raise e => handler e
  end.

Definition is_ok {A} (r : result A) : bool :=
  match r with Ok _ => true | Raise _ => false end.

(** [for x in l: ...] over a body that may raise, collecting the results. *)
Fixpoint for_each {A B} (f : A → result B) (l : list A) : result (list B) :=
  match l with
  | [] => Ok []
  | x :: l' => y ← f x; ys ← for_each f l'; Ok (y :: ys)
  end.

(** ** Values and documents *)

(** Naive [datetime] values, as microseconds since 0001-01-01T00:00:00. *)
Definition datetime := Z.

#[warnings="-register-all"]
Inductive value :=
| VNone
| VBool (b : bool)
| VInt (n : Z)
| VFloat (bits : N)            (* a double, by its IEEE-754 bit pattern *)
| VStr (s : string)
| VObjectId (oid : N)          (* the store's native identifier *)
| VDatetime (t : datetime)
| VList (l : list value).

(** A record of the store, and every Python [dict] keyed by field names. *)
Abbreviation document := (gmap string value).

Definition float_is_nan (bits : N) : bool :=
  (((bits / 2 ^ 52) mod 2 ^ 11 =? 2047) && negb (bits mod 2 ^ 52 =? 0))%N.

Definition float_is_zero (bits : N) : bool := (bits mod 2 ^ 63 =? 0)%N.

(** [a == b] on doubles: a NaN equals nothing, the two zeros are equal. *)
Definition float_eqb (a b : N) : bool :=
  negb (float_is_nan a) && negb (float_is_nan b)
  && ((a =? b)%N || float_is_zero a && float_is_zero b).

Fixpoint value_eqb (v w : value) : bool :=
  match v, w with
  | VNone, VNone => true
  | VBool a, VBool b => Bool.eqb a b
  | VInt a, VInt b => (a =? b)%Z
  | VFloat a, VFloat b => float_eqb a b
  | VStr a, VStr b => String.eqb a b
  | VObjectId a, VObjectId b => (a =? b)%N
  | VDatetime a, VDatetime b => (a =? b)%Z
  | VList a, VList b =>
      (fix go (l1 l2 : list value) : bool :=
         match l1, l2 with
         | [], [] => true
         | x :: l1', y :: l2' => value_eqb x y && go l1' l2'
         | _, _ => false
         end) a b
  | _, _ => false
  end.

Definition is_plain_string (v : value) : bool :=
  match v with VStr _ => true | _ => false end.

(** Python's [str()] on a stored value.  Its text for an ObjectId, a
    datetime or a list belongs to the runtime and to the driver; the
    handlers only rely on its result being a [str]. *)
Class Runtime := { py_str : value → string }.

(** ** Clock arithmetic *)

Definition us_per_day : Z := 86400 * 1000000.

(** One past [datetime.max]: 9999-12-31 has ordinal 3652059. *)
Definition datetime_end : Z := 3652059 * us_per_day.

(** [t + timedelta(days=d)] *)
Definition datetime_add_days (t : datetime) (d : Z) : result datetime :=
  let t' := t + d * us_per_day in
  if (0 <=? t') && (t' <? datetime_end)
  then Ok t'
  else Raise (Exn OverflowError "date value out of range").

(** ** The [database] module, as the handlers see it *)

(** The two queries [ai_search] sends to the driver. *)
Inductive query :=
| QText (search : string)                          (* {"$text": {"$search": q}} *)
| QRegex (field pattern options : string).         (* {f: {"$regex": q, "$options": o}} *)

(** The handle [db] when it is not [None].  [db_bool] is [bool(db)] as the
    handle's class defines it; [db_find c q] is the outcome of iterating
    [db[c].find(q)]: the matching records in cursor order, or the error the
    driver raises. *)
Record Database := {
  db_bool : result bool;
  db_find : string → query → result (list document)
}.

(** [if db] *)
Definition truth (db : option Database) : result bool :=
  match db with
  | None => Ok false
  | Some d => db_bool d
  end.

(** [cursor.limit(n)]: a limit of 0 is no limit, a negative one counts as
    its absolute value. *)
Definition cursor_limit (n : Z) (docs : list document) : list document :=
  if n =? 0 then docs else take (Z.abs_nat n) docs.

(** One field constraint of a filter. *)
Inductive matcher :=
| MEq (v : value)
| MContains (needle : string).

Abbreviation filter_spec := (gmap string matcher).

(** [create_document] and [get_documents] over a store state [St]. *)
Class Adapter (St : Type) := {
  create_document : string → document → St → result (string * St);
  get_documents : string → filter_spec → Z → St → result (list document)
}.

(** ** Request handlers of [main.py] *)

(** *** Auth and security stubs *)

Record LoginRequest := { email : string; password : string }.
Record LoginResponse := { token : string; user : document }.

Definition login (payload : LoginRequest) : result LoginResponse :=
  let user : document :=
    <["role" := VStr "admin"]>
      (<["name" := VStr "Demo User"]>
         (<["email" := VStr (email payload)]> ∅)) in
  Ok {| token := "demo.jwt.token"; user := user |}.

Record TwoFAVerifyRequest := { code : string }.
Record TwoFAVerifyResponse := { verified : bool }.

Definition twofa_verify (payload : TwoFAVerifyRequest) : result TwoFAVerifyResponse :=
  let ok := String.eqb (code payload) "000000" in
  Ok {| verified := ok |}.

(** *** Identifier normalisation *)

(** [r["_id"] = str(r["_id"])]; a missing key raises [KeyError]. *)
Definition stringify_id `{Runtime} (r : document) : result document :=
  match r !! "_id" with
  | Some v => Ok (<["_id" := VStr (py_str v)]> r)
  | None => Raise (Exn KeyError "'_id'")
  end.

(** [if "_id" in r: r["_id"] = str(r["_id"])] *)
Definition stringify_id_if_present `{Runtime} (r : document) : document :=
  match r !! "_id" with
  | Some v => <["_id" := VStr (py_str v)]> r
  | None => r
  end.

(** *** Search and recommendation *)

Record AISearchRequest := { query_text : string }.
Record AISearchResponse := { sr_query : string; sr_results : list document }.

(** [list(db["book"].find(q).limit(10)) if db else []] *)
Definition search_books (db : option Database) (q : query) : result (list document) :=
  match db with
  | None => Ok []
  | Some d =>
      b ← db_bool d;
      if b : bool
      then docs ← db_find d "book" q; Ok (cursor_limit 10 docs)
      else Ok []
  end.

Definition ai_search `{Runtime} (db : option Database) (payload : AISearchRequest)
  : result AISearchResponse :=
  results ← try_except
    (search_books db (QText (query_text payload)))
    (λ _, search_books db (QRegex "title" (query_text payload) "i"));
  results ← for_each stringify_id results;
  Ok {| sr_query := query_text payload; sr_results := results |}.

Record RecommendRequest := { rq_user_id : string }.
Record RecommendResponse := { rr_user_id : string; recommendations : list document }.

Definition ai_recommend `{Runtime} `{Adapter St} (db : option Database) (st : St)
    (payload : RecommendRequest) : result RecommendResponse :=
  b ← truth db;
  items ← (if b : bool
           then get_documents "book" {["available" := MEq (VBool true)]} 5 st
           else Ok []);
  Ok {| rr_user_id := rq_user_id payload;
        recommendations := stringify_id_if_present <$> items |}.

(** *** Billing *)

Record SubscriptionRequest := { sq_user_id : string; plan : string }.

(** The dict [sub] built by [create_subscription]. *)
Definition subscription_record (payload : SubscriptionRequest) (renews_at : datetime)
  : document :=
  <["renews_at" := VDatetime renews_at]>
    (<["status" := VStr "active"]>
       (<["plan" := VStr (plan payload)]>
          (<["user_id" := VStr (sq_user_id payload)]> ∅))).

(** [{"id": x, **d}]: the keys of [d] take precedence. *)
Definition with_id (x : string) (d : document) : document :=
  d ∪ {["id" := VStr x]}.

(** [now] is the value of [datetime.utcnow()]. *)
Definition create_subscription `{Adapter St} (now : datetime) (st : St)
    (payload : SubscriptionRequest) : result (document * St) :=
  renews_at ← datetime_add_days now 30;
  let sub := subscription_record payload renews_at in
  '(sub_id, st') ← create_document "subscription" sub st;
  Ok (with_id sub_id sub, st').

(** [s] used as a condition: the empty string is false. *)
Definition str_truth (s : string) : bool :=
  match s with EmptyString => false | _ => true end.

(** [{k: v} if v else {}] for an optional string [v]. *)
Definition optional_filter (k : string) (v : option string) : filter_spec :=
  match v with
  | Some s => if str_truth s then {[k := MEq (VStr s)]} else ∅
  | None => ∅
  end.

Record InvoicesResponse := { invoices : list document }.

Definition list_invoices `{Runtime} `{Adapter St} (db : option Database) (st : St)
    (user_id : option string) : result InvoicesResponse :=
  let filt := optional_filter "user_id" user_id in
  b ← truth db;
  docs ← (if b : bool then get_documents "invoice" filt 50 st else Ok []);
  Ok {| invoices := stringify_id_if_present <$> docs |}.

(** *** Community *)

Record ForumPostIn := {
  fp_user_id : string;
  fp_title : string;
  fp_content : string;
  fp_tags : list string
}.

(** [payload.dict()] *)
Definition forum_post_dict (payload : ForumPostIn) : document :=
  <["tags" := VList (VStr <$> fp_tags payload)]>
    (<["content" := VStr (fp_content payload)]>
       (<["title" := VStr (fp_title payload)]>
          (<["user_id" := VStr (fp_user_id payload)]> ∅))).

Definition create_forum_post `{Adapter St} (st : St) (payload : ForumPostIn)
  : result (document * St) :=
  '(post_id, st') ← create_document "forumpost" (forum_post_dict payload) st;
  Ok (with_id post_id (forum_post_dict payload), st').

Record ForumPostsResponse := { posts : list document }.

Definition list_forum_posts `{Runtime} `{Adapter St} (db : option Database) (st : St)
    (tag : option string) : result ForumPostsResponse :=
  let filt := optional_filter "tags" tag in
  b ← truth db;
  ps ← (if b : bool then get_documents "forumpost" filt 50 st else Ok []);
  Ok {| posts := stringify_id_if_present <$> ps |}.

(** *** Summaries *)

(** [ai_summary] works on the characters of its input, so a Python [str]
    is a sequence of code points here. *)
Module PyStr.

Abbreviation t := (list N).

Definition of_string (s : string) : t :=
  (λ a, N_of_ascii a) <$> list_ascii_of_string s.

Definition NL : N := 10.
Definition SPACE : N := 32.
Definition DOT : N := 46.

(** [c.isspace()]: the code points CPython lists as whitespace. *)
Definition is_space (c : N) : bool :=
  ((9 <=? c) && (c <=? 13) || (28 <=? c) && (c <=? 32)
   || (c =? 133) || (c =? 160) || (c =? 5760)
   || (8192 <=? c) && (c <=? 8202)
   || (c =? 8232) || (c =? 8233) || (c =? 8239) || (c =? 8287)
   || (c =? 12288))%N.

(** [s.replace(a, b)] for one-character [a] and [b]. *)
Definition replace (a b : N) (s : t) : t :=
  (λ c, if (c =? a)%N then b else c) <$> s.

(** [s.split(sep)] for a one-character separator. *)
Fixpoint split (sep : N) (s : t) : list t :=
  match s with
  | [] => [[]]
  | c :: s' =>
      if (c =? sep)%N then [] :: split sep s'
      else match split sep s' with
           | piece :: pieces => (c :: piece) :: pieces
           | [] => [[c]]
           end
  end.

Fixpoint lstrip (s : t) : t :=
  match s with
  | [] => []
  | c :: s' => if is_space c then lstrip s' else s
  end.

Definition rstrip (s : t) : t := rev (lstrip (rev s)).

(** [s.strip()] *)
Definition strip (s : t) : t := rstrip (lstrip s).

(** [sep.join(parts)] *)
Fixpoint join (sep : t) (parts : list t) : t :=
  match parts with
  | [] => []
  | [p] => p
  | p :: ps => p ++ sep ++ join sep ps
  end.

(** [s] used as a condition *)
Definition truth (s : t) : bool :=
  match s with [] => false | _ => true end.

End PyStr.

(** [l[:k]] *)
Definition slice_to {A} (k : Z) (l : list A) : list A :=
  if 0 <=? k then take (Z.to_nat k) l
  else take (Z.to_nat (Z.of_nat (length l) + k)) l.

Record SummaryRequest := { text : PyStr.t; max_sentences : Z }.
Record SummaryResponse := { summary : PyStr.t; sentences_used : Z }.

Definition sentences_of (text : PyStr.t) : list PyStr.t :=
  PyStr.strip <$>
    List.filter (λ s, PyStr.truth (PyStr.strip s))
      (PyStr.split PyStr.DOT (PyStr.replace PyStr.NL PyStr.SPACE text)).

Definition ai_summary (payload : SummaryRequest) : result SummaryResponse :=
  let sentences := sentences_of (text payload) in
  let summary :=
    (PyStr.join (PyStr.of_string ". ") (slice_to (max_sentences payload) sentences)
     ++ match sentences with [] => [] | _ :: _ => PyStr.of_string "." end)%list in
  Ok {| summary := summary;
        sentences_used := Z.min (Z.of_nat (length sentences)) (max_sentences payload) |}.

(** ** The schema registry: [schemas.py] and [get_schema_index] *)

(** A class object: its qualified name and its direct bases. *)
#[warnings="-register-all"]
Inductive pyclass := PyClass (qualname : string) (bases : list pyclass).

Definition class_name (c : pyclass) : string :=
  match c with PyClass n _ => n end.

(** What a module-level name can be bound to. *)
Inductive pyobj :=
| OType (c : pyclass)            (* the instances of [type] *)
| OFunction (name : string)
| OTypingForm (name : string)    (* typing.Optional, typing.List *)
| OStr (s : string)
| OOther (descr : string).

(** [issubclass(c, b)]: [b] is [c] or an ancestor of [c]. *)
Fixpoint issubclass (c b : pyclass) : bool :=
  match c with
  | PyClass n bases =>
      String.eqb n (class_name b) || existsb (λ p, issubclass p b) bases
  end.

Abbreviation namespace := (list (string * pyobj)).

(** [s.attr] on a module *)
Fixpoint getattr (s : namespace) (attr : string) : result pyobj :=
  match s with
  | [] => Raise (Exn AttributeError ("module has no attribute " ++ attr))
  | (k, o) :: s' => if String.eqb k attr then Ok o else getattr s' attr
  end.

Definition object_class : pyclass := PyClass "object" [].
Definition BaseModel_class : pyclass := PyClass "pydantic.main.BaseModel" [object_class].
Definition date_class : pyclass := PyClass "datetime.date" [object_class].
Definition datetime_class : pyclass := PyClass "datetime.datetime" [date_class].

(** [class name(BaseModel): ...] in [schemas.py] *)
Definition model_class (name : string) : pyclass :=
  PyClass ("schemas." ++ name) [BaseModel_class].

(** The names [schemas.py] declares, in the order of its text. *)
Definition schema_classes : list string :=
  ["User"; "Book"; "Transaction"; "Invoice"; "Subscription"; "ForumPost";
   "Club"; "Recommendation"].

(** [schemas.__dict__] after import: the attributes every module has, the
    imported names, then the declared classes. *)
Definition schemas_module : namespace :=
  [("__name__", OStr "schemas");
   ("__doc__", OStr "Database Schemas for LibVault (Library Management System)");
   ("__package__", OStr "");
   ("__loader__", OOther "loader");
   ("__spec__", OOther "ModuleSpec");
   ("__file__", OStr "schemas.py");
   ("__cached__", OStr "schemas.pyc");
   ("__builtins__", OOther "dict");
   ("BaseModel", OType BaseModel_class);
   ("Field", OFunction "pydantic.Field");
   ("Optional", OTypingForm "typing.Optional");
   ("List", OTypingForm "typing.List");
   ("datetime", OType datetime_class)]
  ++ ((λ n, (n, OType (model_class n))) <$> schema_classes).

(** The condition of the comprehension in [get_schema_index]:
    [isinstance(obj, type) and issubclass(obj, s.BaseModel)
     and name not in ("BaseModel",)] *)
Definition is_model_entry (s : namespace) (name : string) (obj : pyobj) : result bool :=
  match obj with
  | OType c =>
      base ← getattr s "BaseModel";
      match base with
      | OType b =>
          if issubclass c b
          then Ok (negb (existsb (String.eqb name) ["BaseModel"]))
          else Ok false
      | _ => Raise (Exn TypeError "issubclass() arg 2 must be a class")
      end
  | _ => Ok false
  end.

Fixpoint model_names (s : namespace) (items : namespace) : result (list string) :=
  match items with
  | [] => Ok []
  | (name, obj) :: items' =>
      keep ← is_model_entry s name obj;
      rest ← model_names s items';
      Ok (if keep : bool then name :: rest else rest)
  end.

Record SchemaIndex := { models : list string }.

(** [imported] is the outcome of [import schemas as s]. *)
Definition get_schema_index (imported : result namespace) : result SchemaIndex :=
  try_except
    (s ← imported;
     models ← model_names s s;
     Ok {| models := models |})
    (λ e, Raise (HTTPException 500 (exn_str e))).

(** ** The naming convention of [schemas.py] *)

Definition ascii_lower (a : ascii) : ascii :=
  let n := nat_of_ascii a in
  if ((65 <=? n) && (n <=? 90))%nat then ascii_of_nat (n + 32) else a.

(** [s.lower()] on an ASCII name *)
Fixpoint str_lower (s : string) : string :=
  match s with
  | EmptyString => EmptyString
  | String a s' => String (ascii_lower a) (str_lower s')
  end.

(** "The collection name is the lowercase of the class name." *)
Definition collection_of (class_name : string) : string := str_lower class_name.

(** ** The document store adapter, from the specification *)

(** Modelled from the spec: the backing store behind [create_document] and
    [get_documents], whose module [database] is missing.  A store is
    reachable or not, holds the records of each named collection in
    insertion order, and generates identifiers from a counter. *)
Record Store := {
  reachable : bool;
  collections : gmap string (list document);
  next_oid : N
}.

Definition records_of (st : Store) (collection : string) : list document :=
  default [] (collections st !! collection).

Fixpoint is_infix (needle s : string) : bool :=
  String.prefix needle s
  || match s with
     | EmptyString => false
     | String _ s' => is_infix needle s'
     end.

(** Modelled from the spec: a matcher is field equality or a
    case-insensitive substring test; a record lacking the field is
    excluded. *)
Definition field_matches (m : matcher) (field : option value) : bool :=
  match m, field with
  | MEq w, Some v => value_eqb v w
  | MContains needle, Some (VStr s) => is_infix (str_lower needle) (str_lower s)
  | _, _ => false
  end.

(** Modelled from the spec: a filter is the conjunction of its
    constraints. *)
Definition record_matches (f : filter_spec) (r : document) : bool :=
  forallb (λ '(k, m), field_matches m (r !! k)) (map_to_list f).

(** Modelled from the spec: [get_documents] of the missing module
    [database].  It fails with [StoreUnavailable] when the store cannot be
    reached and otherwise returns the records of the collection that match
    the whole filter, at most [limit] of them; a limit of 0 gives no
    record and a collection that does not exist gives the empty sequence.
    A negative limit breaks the input requirement and is reported as
    [InvalidArgument]. *)
Definition spec_get_documents (collection : string) (f : filter_spec) (limit : Z)
    (st : Store) : result (list document) :=
  if limit <? 0 then Raise (Exn InvalidArgument "limit must be >= 0")
  else if negb (reachable st) then Raise (Exn StoreUnavailable "store unreachable")
  else Ok (take (Z.to_nat limit)
             (List.filter (record_matches f) (records_of st collection))).

(** Modelled from the spec: [create_document] of the missing module
    [database].  It fails with [InvalidArgument] on an empty collection
    name and with [StoreUnavailable] when the store cannot be reached;
    otherwise it persists the supplied fields as one new record under a
    fresh native identifier and returns that identifier as a string. *)
Definition spec_create_document `{Runtime} (collection : string) (data : document)
    (st : Store) : result (string * Store) :=
  if str_truth collection then
    if reachable st then
      let oid := VObjectId (next_oid st) in
      let record := <["_id" := oid]> data in
      Ok (py_str oid,
          {| reachable := true;
             collections :=
               <[collection := (records_of st collection ++ [record])%list]>
                 (collections st);
             next_oid := N.succ (next_oid st) |})
    else Raise (Exn StoreUnavailable "store unreachable")
  else Raise (Exn InvalidArgument "collection must not be empty").

(** Modelled from the spec: the missing module [database] as an adapter
    over [Store]. *)
#[global] Instance spec_adapter `{Runtime} : Adapter Store := {
  create_document := spec_create_document;
  get_documents := spec_get_documents
}.

(** ** Sample inputs *)

(** A rendering of values for the examples: the identifier [n] prints as
    "oid" followed by [n] marks, a string as itself, anything else as "?". *)
Definition sample_str (v : value) : string :=
  match v with
  | VStr s => s
  | VObjectId n => "oid" ++ string_of_list_ascii (repeat "#"%char (N.to_nat n))
  | _ => "?"
  end.

Definition sample_runtime : Runtime := {| py_str := sample_str |}.

Definition sample_book (n : N) (title : string) (avail : bool) : document :=
  <["available" := VBool avail]>
    (<["title" := VStr title]> (<["_id" := VObjectId n]> ∅)).

Definition sample_store : Store :=
  {| reachable := true;
     collections :=
       {["book" := [sample_book 0 "Dune" true; sample_book 1 "Emma" false;
                    sample_book 2 "Ulysses" true]]};
     next_oid := 3 |}.

(** A handle whose text queries fail (no text index) and whose regex
    queries return the books of [sample_store]. *)
Definition sample_db : Database :=
  {| db_bool := Ok true;
     db_find := λ c q,
       match q with
       | QText _ => Raise (Exn (OtherError "OperationFailure") "text index required for $text query")
       | QRegex _ _ _ => Ok (records_of sample_store c)
       end |}.

(** ** Further handlers of [main.py] *)

(** *** Role permissions *)

Record RbacResponse := { rb_role : string; rb_permissions : list string }.

(** The dict [permissions] of [rbac]. *)
Definition role_permissions : gmap string (list string) :=
  <["member" := ["borrow"; "read"]]>
    (<["librarian" := ["manage_books"; "transactions"]]>
       (<["admin" := ["manage_users"; "manage_books"; "view_reports"; "billing"]]> ∅)).

Definition rbac (role : string) : RbacResponse :=
  {| rb_role := role; rb_permissions := default [] (role_permissions !! role) |}.

(** [role: str = Query("member")]: the query parameter may be left out. *)
Definition rbac_endpoint (role : option string) : RbacResponse :=
  rbac (default "member" role).

(** *** The database self-test *)

(** What evaluating an expression on the handle gives [test_database]: a
    value, or an exception with [str(e)] as its text. *)
Inductive outcome (A : Type) :=
| Returns (a : A)
| Raises (text : PyStr.t).
Arguments Returns {A} a.
Arguments Raises {A} text.

(** The handle [db] as [test_database] uses it.  [probe_name] is
    [db.name if hasattr(db, 'name') else ...]: the attribute when there is
    one; [probe_collections] is [db.list_collection_names()]. *)
Record HandleProbe := {
  probe_name : outcome (option PyStr.t);
  probe_collections : outcome (list PyStr.t)
}.

(** The dict [response]; [None] stands for Python's [None]. *)
Record TestResponse := {
  tr_backend : PyStr.t;
  tr_database : PyStr.t;
  tr_database_url : option PyStr.t;
  tr_database_name : option PyStr.t;
  tr_connection_status : PyStr.t;
  tr_collections : list PyStr.t
}.

Definition set_database (v : PyStr.t) (r : TestResponse) : TestResponse :=
  {| tr_backend := tr_backend r; tr_database := v;
     tr_database_url := tr_database_url r; tr_database_name := tr_database_name r;
     tr_connection_status := tr_connection_status r;
     tr_collections := tr_collections r |}.

Definition set_database_url (v : option PyStr.t) (r : TestResponse) : TestResponse :=
  {| tr_backend := tr_backend r; tr_database := tr_database r;
     tr_database_url := v; tr_database_name := tr_database_name r;
     tr_connection_status := tr_connection_status r;
     tr_collections := tr_collections r |}.

Definition set_database_name (v : option PyStr.t) (r : TestResponse) : TestResponse :=
  {| tr_backend := tr_backend r; tr_database := tr_database r;
     tr_database_url := tr_database_url r; tr_database_name := v;
     tr_connection_status := tr_connection_status r;
     tr_collections := tr_collections r |}.

Definition set_connection_status (v : PyStr.t) (r : TestResponse) : TestResponse :=
  {| tr_backend := tr_backend r; tr_database := tr_database r;
     tr_database_url := tr_database_url r; tr_database_name := tr_database_name r;
     tr_connection_status := v;
     tr_collections := tr_collections r |}.

Definition set_collections (v : list PyStr.t) (r : TestResponse) : TestResponse :=
  {| tr_backend := tr_backend r; tr_database := tr_database r;
     tr_database_url := tr_database_url r; tr_database_name := tr_database_name r;
     tr_connection_status := tr_connection_status r;
     tr_collections := v |}.

(** The marks of the status texts: U+2705, U+274C and U+26A0 U+FE0F. *)
Definition CHECK_MARK : PyStr.t := [9989%N].
Definition CROSS_MARK : PyStr.t := [10060%N].
Definition WARNING_SIGN : PyStr.t := [9888%N; 65039%N].

(** A status text: a mark followed by ASCII text. *)
Definition status_text (mark : PyStr.t) (rest : string) : PyStr.t :=
  (mark ++ PyStr.of_string rest)%list.

(** [os.getenv(name)] used as a condition: set and not empty. *)
Definition env_truth (v : option PyStr.t) : bool :=
  match v with
  | Some s => PyStr.truth s
  | None => false
  end.

Definition env_status (v : option PyStr.t) : PyStr.t :=
  if env_truth v then status_text CHECK_MARK " Set"
  else status_text CROSS_MARK " Not Set".

(** The [try] block of [test_database]: what it leaves in [response],
    including the texts its two [except] clauses write. *)
Definition test_database_probe (db : option HandleProbe) (r0 : TestResponse)
  : TestResponse :=
  match db with
  | Some h =>
      let r := set_database (status_text CHECK_MARK " Available") r0 in
      let r := set_database_url (Some (status_text CHECK_MARK " Configured")) r in
      match probe_name h with
      | Returns name =>
          let r := set_database_name
                     (Some (default (status_text CHECK_MARK " Connected") name)) r in
          let r := set_connection_status (PyStr.of_string "Connected") r in
          match probe_collections h with
          | Returns collections =>
              let r := set_collections (take 10 collections) r in
              set_database (status_text CHECK_MARK " Connected & Working") r
          | Raises text =>
              set_database
                (status_text WARNING_SIGN "  Connected but Error: " ++ take 80 text)%list r
          end
      | Raises text =>
          set_database (status_text CROSS_MARK " Error: " ++ take 80 text)%list r
      end
  | None => set_database (status_text WARNING_SIGN "  Available but not initialized") r0
  end.

(** [env_url] and [env_name] are [os.getenv("DATABASE_URL")] and
    [os.getenv("DATABASE_NAME")]. *)
Definition test_database (db : option HandleProbe) (env_url env_name : option PyStr.t)
  : TestResponse :=
  let response :=
    {| tr_backend := status_text CHECK_MARK " Running";
       tr_database := status_text CROSS_MARK " Not Available";
       tr_database_url := None;
       tr_database_name := None;
       tr_connection_status := PyStr.of_string "Not Connected";
       tr_collections := [] |} in
  let response := test_database_probe db response in
  let response := set_database_url (Some (env_status env_url)) response in
  set_database_name (Some (env_status env_name)) response.

(** *** The schema endpoint and what its [except] clause lets through *)

(** The outcome of [import schemas as s]: the module, an error of the
    class [Exception], or something raised outside that class
    ([SystemExit], [KeyboardInterrupt]), given by its name. *)
Inductive import_outcome :=
| Imported (s : namespace)
| ImportFails (e : exn)
| ImportAborts (name : string).

Inductive endpoint_outcome (A : Type) :=
| Answers (a : A)
| Fails (e : exn)
| Aborts (name : string).
Arguments Answers {A} a.
Arguments Fails {A} e.
Arguments Aborts {A} name.

Definition endpoint_of_result {A} (res : result A) : endpoint_outcome A :=
  match res with
  | Ok a => Answers a
  | Raise e => Fails e
  end.

(** [get_schema_index] with the import run inside its [try]: the clause
    [except Exception] does not catch what is raised outside [Exception]. *)
Definition schema_endpoint (imported : import_outcome) : endpoint_outcome SchemaIndex :=
  match imported with
  | Imported s => endpoint_of_result (get_schema_index (Ok s))
  | ImportFails e => endpoint_of_result (get_schema_index (Raise e))
  | ImportAborts name => Aborts name
  end.

(** ** Notions used to state the properties *)

(** A module-level binding declares a model: a class below [base] that is
    not bound to the name "BaseModel". *)
Definition declares_model (base : pyclass) (item : string * pyobj) : bool :=
  match item.2 with
  | OType c => issubclass c base && negb (String.eqb item.1 "BaseModel")
  | _ => false
  end.

(** A module-level binding to a class object. *)
Definition binds_class (item : string * pyobj) : bool :=
  match item.2 with OType _ => true | _ => false end.

(** The identifier of [r'] is the one of [r] as a string: [str(v)] under
    ["_id"] when [r] has the identifier [v], and no ["_id"] when [r] has
    none. *)
Definition id_stringified `{Runtime} (r r' : document) : Prop :=
  match r !! "_id" with
  | Some v => r' !! "_id" = Some (VStr (py_str v))
  | None => r' !! "_id" = None
  end.

(** Two records that differ at most in the value of ["_id"]. *)
Definition same_but_id (r r' : document) : Prop :=
  dom r' = dom r ∧ ∀ k, k ≠ "_id" → r' !! k = r !! k.

(** A handle whose truth test raises, as a driver may define it. *)
Definition sample_untestable_db : Database :=
  {| db_bool := Raise (Exn (OtherError "NotImplementedError")
                         "Database objects do not implement truth value testing");
     db_find := db_find sample_db |}.

(** A handle that tests false. *)
Definition sample_falsy_db : Database :=
  {| db_bool := Ok false; db_find := db_find sample_db |}.

(** A handle whose text queries return a record without ["_id"]. *)
Definition sample_projecting_db : Database :=
  {| db_bool := Ok true;
     db_find := λ c q, Ok [sample_book 0 "Dune" true; {["title" := VStr "Emma"]}] |}.

(** A handle whose every query returns the books of [sample_store]. *)
Definition sample_indexed_db : Database :=
  {| db_bool := Ok true; db_find := λ c q, Ok (records_of sample_store c) |}.

(** An adapter whose store cannot be reached. *)
Definition sample_down_store : Store :=
  {| reachable := false; collections := ∅; next_oid := 0 |}.

(** The number of dots in a text. *)
Definition dots (s : PyStr.t) : nat :=
  length (List.filter (λ c, (c =? PyStr.DOT)%N) s).

(** A tidy sentence: not empty, no whitespace at either end, no dot and no
    newline inside. *)
Definition tidy (s : PyStr.t) : Prop :=
  s ≠ []
  ∧ PyStr.lstrip s = s
  ∧ PyStr.lstrip (rev s) = rev s
  ∧ ∀ c, c ∈ s → c ≠ PyStr.DOT ∧ c ≠ PyStr.NL.

(** A piece of text that holds a character other than whitespace. *)
Definition nonblank (s : PyStr.t) : bool :=
  existsb (λ c, negb (PyStr.is_space c)) s.

(** The number of non-empty sentences of a text: the pieces between its
    dots that are more than whitespace. *)
Definition sentence_count (text : PyStr.t) : nat :=
  length (List.filter nonblank (PyStr.split PyStr.DOT text)).

(** The records of a response, or none when the handler raised. *)
Definition returned {A} (proj : A → list document) (res : result A) : list document :=
  match res with
  | Ok a => proj a
  | Raise _ => []
  end.

(** * Properties *)

(** ** The result monad *)

Lemma bind_Ok {A B} (m : result A) (f : A → result B) (b : B) :
  m ≫= f = Ok b ↔ ∃ a, m = Ok a ∧ f a = Ok b.
Proof.
  destruct m as [a|e]; simpl.
  - split; [eauto | intros (a' & Ha & Hf); congruence].
  - split; [discriminate | intros (a' & Ha & _); discriminate].
Qed.

Lemma for_each_Ok_length {A B} (f : A → result B) (l : list A) (l' : list B) :
  for_each f l = Ok l' → length l' = length l.
Proof.
  revert l'. induction l as [|x l IH]; intros l' Hl; simpl in Hl.
  - by injection Hl as <-.
  - apply bind_Ok in Hl as (y & Hy & Hl).
    apply bind_Ok in Hl as (ys & Hys & Hl).
    injection Hl as <-. simpl. f_equal. by apply IH.
Qed.

Lemma for_each_Ok_elem {A B} (f : A → result B) (l : list A) (l' : list B) (y : B) :
  for_each f l = Ok l' → y ∈ l' → ∃ x, x ∈ l ∧ f x = Ok y.
Proof.
  revert l'. induction l as [|x l IH]; intros l' Hl Hy; simpl in Hl.
  - injection Hl as <-. by apply elem_of_nil in Hy.
  - apply bind_Ok in Hl as (y0 & Hy0 & Hl).
    apply bind_Ok in Hl as (ys & Hys & Hl).
    injection Hl as <-.
    apply elem_of_cons in Hy as [-> | Hy].
    + exists x. split; [left | done].
    + destruct (IH ys Hys Hy) as (x' & Hx' & Hfx').
      exists x'. split; [by right | done].
Qed.

Lemma for_each_Forall2 {A B} (f : A → result B) (R : A → B → Prop)
    (l : list A) (l' : list B) :
  (∀ x y, f x = Ok y → R x y) → for_each f l = Ok l' → Forall2 R l l'.
Proof.
  intros HR. revert l'. induction l as [|x l IH]; intros l' Hl; simpl in Hl.
  - injection Hl as <-. constructor.
  - apply bind_Ok in Hl as (y & Hy & Hl).
    apply bind_Ok in Hl as (ys & Hys & Hl).
    injection Hl as <-. constructor; [by apply HR | by apply IH].
Qed.

Lemma for_each_total {A B} (f : A → result B) (l : list A) :
  (∀ x, x ∈ l → is_ok (f x) = true) → ∃ l', for_each f l = Ok l'.
Proof.
  induction l as [|x l IH]; intros Hall; simpl.
  - by exists [].
  - assert (Hx : is_ok (f x) = true) by (apply Hall; left).
    destruct (f x) as [y|e]; [| discriminate]. simpl.
    destruct IH as (ys & ->).
    { intros x' Hx'. apply Hall. by right. }
    simpl. by exists (y :: ys).
Qed.

(** ** Login and two-factor stubs *)

(** C4: every login request succeeds with the token "demo.jwt.token" and a
    user object made of the request's email, the name "Demo User" and the
    role "admin", whatever the password. *)
Theorem login_always_succeeds (payload : LoginRequest) :
  ∃ r, login payload = Ok r
       ∧ token r = "demo.jwt.token"
       ∧ user r !! "email" = Some (VStr (email payload))
       ∧ user r !! "name" = Some (VStr "Demo User")
       ∧ user r !! "role" = Some (VStr "admin")
       ∧ dom (user r) = ({["email"; "name"; "role"]} : gset string).
Proof.
  eexists. split; [reflexivity |]. simpl.
  split_and!; [done | by simplify_map_eq.. |].
  rewrite !dom_insert_L, dom_empty_L. set_solver.
Qed.

(** C10: the 2FA check answers with [verified] true exactly when the
    submitted code is the string "000000", and answers for every code. *)
Theorem twofa_verify_iff (payload : TwoFAVerifyRequest) :
  ∃ r, twofa_verify payload = Ok r
       ∧ (verified r = true ↔ code payload = "000000").
Proof.
  eexists. split; [reflexivity |]. simpl.
  apply String.eqb_eq.
Qed.

(** ** The schema index *)

Lemma model_names_filter (s items : namespace) (b : pyclass) :
  getattr s "BaseModel" = Ok (OType b) →
  model_names s items = Ok ((List.filter (declares_model b) items).*1).
Proof.
  intros Hb. induction items as [|[name obj] items IH]; simpl; [done |].
  rewrite IH. unfold declares_model, is_model_entry. simpl.
  destruct obj as [c| | | |]; simpl; try done.
  rewrite Hb. simpl.
  destruct (issubclass c b); simpl; [| done].
  rewrite orb_false_r.
  by destruct (String.eqb name "BaseModel").
Qed.

(** A registry that binds [BaseModel] to a class never makes the endpoint
    fail. *)
Lemma get_schema_index_total (s : namespace) (b : pyclass) :
  getattr s "BaseModel" = Ok (OType b) →
  get_schema_index (Ok s)
  = Ok {| models := (List.filter (declares_model b) s).*1 |}.
Proof.
  intros Hb. unfold get_schema_index. simpl.
  by rewrite (model_names_filter s s b Hb).
Qed.

Lemma schema_index_models_eq :
  get_schema_index (Ok schemas_module)
  = Ok {| models := ["User"; "Book"; "Transaction"; "Invoice"; "Subscription";
                     "ForumPost"; "Club"; "Recommendation"] |}.
Proof. vm_compute. reflexivity. Qed.

(** C5: on the registry of [schemas.py] the schema endpoint does not fail
    and returns the eight declared model names, in declaration order and
    without "BaseModel"; a name is returned exactly when the module binds
    it to a subclass of [BaseModel] under another name than "BaseModel". *)
Theorem schema_index_lists_models :
  get_schema_index (Ok schemas_module)
  = Ok {| models := ["User"; "Book"; "Transaction"; "Invoice"; "Subscription";
                     "ForumPost"; "Club"; "Recommendation"] |}
  ∧ ∀ name, name ∈ ["User"; "Book"; "Transaction"; "Invoice"; "Subscription";
                     "ForumPost"; "Club"; "Recommendation"]
      ↔ ∃ c, (name, OType c) ∈ schemas_module
             ∧ issubclass c BaseModel_class = true
             ∧ name ≠ "BaseModel".
Proof.
  split; [exact schema_index_models_eq |].
  intros name.
  change (name ∈ (List.filter (declares_model BaseModel_class) schemas_module).*1
          ↔ ∃ c, (name, OType c) ∈ schemas_module
                 ∧ issubclass c BaseModel_class = true ∧ name ≠ "BaseModel").
  rewrite list_elem_of_fmap. split.
  - intros ([n o] & -> & Hin). simpl.
    apply list_elem_of_In, filter_In in Hin as [Hin Hm].
    unfold declares_model in Hm. simpl in Hm.
    destruct o as [c| | | |]; try discriminate.
    apply andb_true_iff in Hm as [Hsub Hne].
    exists c. split_and!; [by apply list_elem_of_In | done |].
    intros ->. discriminate.
  - intros (c & Hin & Hsub & Hne).
    exists (name, OType c). split; [done |].
    apply list_elem_of_In, filter_In. split; [by apply list_elem_of_In |].
    unfold declares_model. simpl. rewrite Hsub. simpl.
    destruct (String.eqb_spec name "BaseModel"); [done | done].
Qed.

(** ** Handlers without a database handle *)

(** C6: with [db] set to [None] the three read endpoints return their
    usual response with an empty sequence, whatever the adapter is. *)
Theorem read_endpoints_without_db `{Runtime} `{Adapter St}
    (st : St) (p : RecommendRequest) (user_id tag : option string) :
  ai_recommend None st p = Ok {| rr_user_id := rq_user_id p; recommendations := [] |}
  ∧ list_invoices None st user_id = Ok {| invoices := [] |}
  ∧ list_forum_posts None st tag = Ok {| posts := [] |}.
Proof. by split_and!. Qed.

(** ** Identifier normalisation *)

Lemma stringify_id_plain `{Runtime} (r r' : document) :
  stringify_id r = Ok r' → ∃ s, r' !! "_id" = Some (VStr s).
Proof.
  unfold stringify_id. destruct (r !! "_id") as [v|]; [| discriminate].
  intros [= <-]. exists (py_str v). by simplify_map_eq.
Qed.

Lemma stringify_id_if_present_plain `{Runtime} (r : document) (v : value) :
  stringify_id_if_present r !! "_id" = Some v → ∃ s, v = VStr s.
Proof.
  unfold stringify_id_if_present.
  destruct (r !! "_id") as [w|] eqn:Hw.
  - rewrite lookup_insert_eq. intros [= <-]. by eexists.
  - rewrite Hw. discriminate.
Qed.

Lemma returned_fmap_plain `{Runtime} {A} (proj : A → list document)
    (res : result (list document)) (mk : list document → A) (r : document) (v : value) :
  (∀ l, proj (mk l) = l) →
  r ∈ returned proj (l ← res; Ok (mk (stringify_id_if_present <$> l))) →
  r !! "_id" = Some v → ∃ s, v = VStr s.
Proof.
  intros Hproj. destruct res as [l|e]; simpl.
  - rewrite Hproj. intros (r0 & -> & _)%list_elem_of_fmap.
    apply stringify_id_if_present_plain.
  - by intros ?%elem_of_nil.
Qed.

(** Every record of an [ai_search] response carries an [_id], and it is a
    string. *)
Lemma ai_search_ids `{Runtime} (db : option Database) (q : AISearchRequest)
    (r : document) :
  r ∈ returned sr_results (ai_search db q) → ∃ s, r !! "_id" = Some (VStr s).
Proof.
  unfold ai_search.
  destruct (try_except _ _) as [docs|e]; simpl; [| by intros ?%elem_of_nil].
  destruct (for_each stringify_id docs) as [rs|e] eqn:Hrs; simpl;
    [| by intros ?%elem_of_nil].
  intros Hr. destruct (for_each_Ok_elem _ _ _ _ Hrs Hr) as (r0 & _ & Hr0).
  by eapply stringify_id_plain.
Qed.

Lemma ai_recommend_ids `{Runtime} `{Adapter St} (db : option Database) (st : St)
    (p : RecommendRequest) (r : document) (v : value) :
  r ∈ returned recommendations (ai_recommend db st p) →
  r !! "_id" = Some v → ∃ s, v = VStr s.
Proof.
  unfold ai_recommend. destruct (truth db) as [b|e]; simpl;
    [| by intros ?%elem_of_nil].
  apply (returned_fmap_plain recommendations _
           (λ l, {| rr_user_id := rq_user_id p; recommendations := l |})); done.
Qed.

Lemma list_invoices_ids `{Runtime} `{Adapter St} (db : option Database) (st : St)
    (user_id : option string) (r : document) (v : value) :
  r ∈ returned invoices (list_invoices db st user_id) →
  r !! "_id" = Some v → ∃ s, v = VStr s.
Proof.
  unfold list_invoices. destruct (truth db) as [b|e]; simpl;
    [| by intros ?%elem_of_nil].
  apply (returned_fmap_plain invoices _ (λ l, {| invoices := l |})); done.
Qed.

Lemma list_forum_posts_ids `{Runtime} `{Adapter St} (db : option Database) (st : St)
    (tag : option string) (r : document) (v : value) :
  r ∈ returned posts (list_forum_posts db st tag) →
  r !! "_id" = Some v → ∃ s, v = VStr s.
Proof.
  unfold list_forum_posts. destruct (truth db) as [b|e]; simpl;
    [| by intros ?%elem_of_nil].
  apply (returned_fmap_plain posts _ (λ l, {| posts := l |})); done.
Qed.

Lemma stringify_id_presence `{Runtime} (r r' : document) :
  stringify_id r = Ok r' →
  ∃ v, r !! "_id" = Some v ∧ r' !! "_id" = Some (VStr (py_str v)).
Proof.
  unfold stringify_id. destruct (r !! "_id") as [v|]; [| discriminate].
  intros [= <-]. exists v. split; [done |]. apply lookup_insert_eq.
Qed.

Lemma stringify_id_if_present_presence `{Runtime} (r : document) :
  id_stringified r (stringify_id_if_present r).
Proof.
  unfold id_stringified, stringify_id_if_present.
  destruct (r !! "_id") as [v|] eqn:Hv; [apply lookup_insert_eq | exact Hv].
Qed.

Lemma fmap_stringify_presence `{Runtime} (docs : list document) :
  Forall2 id_stringified docs (stringify_id_if_present <$> docs).
Proof.
  induction docs as [|r docs IH]; simpl; constructor; [| exact IH].
  apply stringify_id_if_present_presence.
Qed.

(** The records an adapter-backed endpoint answers with, against the
    records it fetched. *)
Lemma fetched_ids_stringified `{Runtime} {A} (proj : A → list document)
    (mk : list document → A) (fetch : result (list document)) (resp : A) :
  (∀ l, proj (mk l) = l) →
  (l ← fetch; Ok (mk (stringify_id_if_present <$> l))) = Ok resp →
  ∃ docs, fetch = Ok docs ∧ Forall2 id_stringified docs (proj resp).
Proof.
  intros Hproj Hres. apply bind_Ok in Hres as (docs & Hdocs & Hres).
  injection Hres as <-. exists docs. split; [done |].
  rewrite Hproj. apply fmap_stringify_presence.
Qed.

(** C2: a record returned by any of the four listing endpoints never shows
    a native identifier: whatever its [_id] holds is a plain string.  And
    the identifier is not lost on the way: the records of a response are,
    one for one and in order, the records the driver or the adapter
    returned, each with [str(v)] under [_id] where the source record has
    the identifier [v] ([ai_search] answers only if every record has
    one). *)
Theorem listing_ids_are_strings `{Runtime} `{Adapter St}
    (db : option Database) (st : St) (q : AISearchRequest) (p : RecommendRequest)
    (user_id tag : option string) :
  (∀ r v,
     r ∈ (returned sr_results (ai_search db q)
          ++ returned recommendations (ai_recommend db st p)
          ++ returned invoices (list_invoices db st user_id)
          ++ returned posts (list_forum_posts db st tag))%list →
     r !! "_id" = Some v →
     ∃ s, v = VStr s)
  ∧ (∀ resp, ai_search db q = Ok resp →
       ∃ docs,
         try_except (search_books db (QText (query_text q)))
           (λ _, search_books db (QRegex "title" (query_text q) "i")) = Ok docs
         ∧ Forall2 (λ r r', ∃ v, r !! "_id" = Some v
                                 ∧ r' !! "_id" = Some (VStr (py_str v)))
             docs (sr_results resp))
  ∧ (∀ resp, ai_recommend db st p = Ok resp →
       ∃ docs,
         (b ← truth db;
          if b : bool
          then get_documents "book" {["available" := MEq (VBool true)]} 5 st
          else Ok []) = Ok docs
         ∧ Forall2 id_stringified docs (recommendations resp))
  ∧ (∀ resp, list_invoices db st user_id = Ok resp →
       ∃ docs,
         (b ← truth db;
          if b : bool
          then get_documents "invoice" (optional_filter "user_id" user_id) 50 st
          else Ok []) = Ok docs
         ∧ Forall2 id_stringified docs (invoices resp))
  ∧ (∀ resp, list_forum_posts db st tag = Ok resp →
       ∃ docs,
         (b ← truth db;
          if b : bool
          then get_documents "forumpost" (optional_filter "tags" tag) 50 st
          else Ok []) = Ok docs
         ∧ Forall2 id_stringified docs (posts resp)).
Proof.
  split_and!.
  - intros r v. rewrite !elem_of_app. intros [Hr | [Hr | [Hr | Hr]]] Hv.
    + destruct (ai_search_ids db q r Hr) as (s & Hs).
      exists s. congruence.
    + by eapply ai_recommend_ids.
    + by eapply list_invoices_ids.
    + by eapply list_forum_posts_ids.
  - intros resp Hres. unfold ai_search in Hres.
    apply bind_Ok in Hres as (docs & Hdocs & Hres).
    apply bind_Ok in Hres as (results & Hresults & Hres).
    injection Hres as <-. exists docs. split; [exact Hdocs |].
    eapply for_each_Forall2; [| exact Hresults].
    intros r r'. apply stringify_id_presence.
  - intros resp Hres.
    apply (fetched_ids_stringified recommendations
             (λ l, {| rr_user_id := rq_user_id p; recommendations := l |})); [done |].
    unfold ai_recommend in Hres. by destruct (truth db).
  - intros resp Hres.
    apply (fetched_ids_stringified invoices (λ l, {| invoices := l |})); [done |].
    unfold list_invoices in Hres. by destruct (truth db).
  - intros resp Hres.
    apply (fetched_ids_stringified posts (λ l, {| posts := l |})); [done |].
    unfold list_forum_posts in Hres. by destruct (truth db).
Qed.

Lemma listing_ids_are_strings_witness :
  let r : document := <["_id" := VStr "oid"]> (sample_book 0 "Dune" true) in
  let A := @spec_adapter sample_runtime in
  let resp := {| rr_user_id := "u1";
                 recommendations :=
                   [<["_id" := VStr "oid"]> (sample_book 0 "Dune" true);
                    <["_id" := VStr "oid##"]> (sample_book 2 "Ulysses" true)] |} in
  r ∈ (returned sr_results (@ai_search sample_runtime (Some sample_db) {| query_text := "u" |})
       ++ returned recommendations
            (@ai_recommend sample_runtime Store A (Some sample_db) sample_store
               {| rq_user_id := "u1" |})
       ++ returned invoices (@list_invoices sample_runtime Store A (Some sample_db) sample_store None)
       ++ returned posts (@list_forum_posts sample_runtime Store A (Some sample_db) sample_store None))%list
  ∧ r !! "_id" = Some (VStr "oid")
  ∧ (∃ s, VStr "oid" = VStr s)
  ∧ @ai_recommend sample_runtime Store A (Some sample_db) sample_store
      {| rq_user_id := "u1" |} = Ok resp
  ∧ ∃ docs,
      @get_documents Store A "book" {["available" := MEq (VBool true)]} 5 sample_store
      = Ok docs
      ∧ Forall2 (@id_stringified sample_runtime) docs (recommendations resp).
Proof.
  intros r A resp.
  pose proof (@listing_ids_are_strings sample_runtime Store A (Some sample_db)
                sample_store {| query_text := "u" |} {| rq_user_id := "u1" |} None None)
    as (Hplain & _ & Hkept & _).
  assert (Hin : r ∈ (returned sr_results
                       (@ai_search sample_runtime (Some sample_db) {| query_text := "u" |})
       ++ returned recommendations
            (@ai_recommend sample_runtime Store A (Some sample_db) sample_store
               {| rq_user_id := "u1" |})
       ++ returned invoices (@list_invoices sample_runtime Store A (Some sample_db) sample_store None)
       ++ returned posts (@list_forum_posts sample_runtime Store A (Some sample_db) sample_store None))%list).
  { vm_compute. left. }
  assert (Hid : r !! "_id" = Some (VStr "oid")) by (vm_compute; reflexivity).
  assert (Hresp : @ai_recommend sample_runtime Store A (Some sample_db) sample_store
                    {| rq_user_id := "u1" |} = Ok resp) by (vm_compute; reflexivity).
  split; [exact Hin |]. split; [exact Hid |].
  split; [exact (Hplain r (VStr "oid") Hin Hid) |].
  split; [exact Hresp |].
  exact (Hkept resp Hresp).
Defined.

(** The two available books come back with their identifiers as strings. *)
Example ai_recommend_ids_run :
  (λ resp, (λ r : document, r !! "_id") <$> recommendations resp)
    <$> @ai_recommend sample_runtime Store (@spec_adapter sample_runtime)
          (Some sample_db) sample_store {| rq_user_id := "u1" |}
  = Ok [Some (VStr "oid"); Some (VStr "oid##")].
Proof. vm_compute. reflexivity. Qed.

(** ** Result limits *)

Lemma length_take_Z {A} (n : Z) (l : list A) :
  0 ≤ n → Z.of_nat (length (take (Z.to_nat n) l)) ≤ n.
Proof. intros Hn. rewrite length_take. lia. Qed.

Lemma cursor_limit_10 (docs : list document) :
  (length (cursor_limit 10 docs) ≤ 10)%nat.
Proof. unfold cursor_limit. simpl. rewrite length_take. lia. Qed.

Lemma spec_get_documents_bound (c : string) (f : filter_spec) (n : Z) (st : Store)
    (docs : list document) :
  spec_get_documents c f n st = Ok docs → Z.of_nat (length docs) ≤ n.
Proof.
  unfold spec_get_documents.
  destruct (Z.ltb_spec n 0) as [Hneg | Hpos]; [discriminate |].
  destruct (reachable st); simpl; [| discriminate].
  intros [= <-]. by apply length_take_Z.
Qed.

Lemma spec_get_documents_returns (c : string) (f : filter_spec) (n : Z) (st : Store) :
  0 ≤ n → reachable st = true →
  spec_get_documents c f n st
  = Ok (take (Z.to_nat n) (List.filter (record_matches f) (records_of st c))).
Proof.
  intros Hn Hr. unfold spec_get_documents. rewrite Hr. simpl.
  by destruct (Z.ltb_spec n 0); [lia |].
Qed.

Lemma search_books_bound (db : option Database) (q : query) (docs : list document) :
  search_books db q = Ok docs → (length docs ≤ 10)%nat.
Proof.
  unfold search_books. destruct db as [d|]; [| intros [= <-]; simpl; lia].
  destruct (db_bool d) as [[]|e]; simpl; try discriminate.
  - destruct (db_find d "book" q) as [l|e]; simpl; [| discriminate].
    intros [= <-]. apply cursor_limit_10.
  - intros [= <-]. simpl. lia.
Qed.

Lemma ai_search_bound `{Runtime} (db : option Database) (q : AISearchRequest) :
  (length (returned sr_results (ai_search db q)) ≤ 10)%nat.
Proof.
  unfold ai_search.
  destruct (try_except _ _) as [docs|e] eqn:Hdocs; simpl; [| lia].
  destruct (for_each stringify_id docs) as [rs|e] eqn:Hrs; simpl; [| lia].
  rewrite (for_each_Ok_length _ _ _ Hrs).
  unfold try_except in Hdocs.
  destruct (search_books db (QText _)) as [l|e] eqn:Hprimary.
  - injection Hdocs as <-. by eapply search_books_bound.
  - by eapply search_books_bound.
Qed.

Lemma returned_limited `{Runtime} {A} (proj : A → list document)
    (mk : list document → A) (c : string) (f : filter_spec) (n : Z) (st : Store)
    (b : result bool) :
  0 ≤ n → (∀ l, proj (mk l) = l) →
  Z.of_nat (length (returned proj
     (b' ← b;
      l ← (if b' : bool then spec_get_documents c f n st else Ok []);
      Ok (mk (stringify_id_if_present <$> l))))) ≤ n.
Proof.
  intros Hn Hproj. destruct b as [[]|e]; simpl; try lia.
  - destruct (spec_get_documents c f n st) as [l|e] eqn:Hl; simpl; [| lia].
    rewrite Hproj, length_fmap. by eapply spec_get_documents_bound.
  - rewrite Hproj. simpl. lia.
Qed.

(** C3: [get_documents] called with a limit [n >= 0] returns (on a store
    that can be reached) and never returns more than [n] records;
    [ai_search] returns at most 10 results, [ai_recommend] at most 5
    recommendations and [list_invoices] at most 50 invoices. *)
Theorem limits_bound_results `{Runtime} (db : option Database) (st : Store)
    (c : string) (f : filter_spec) (n : Z)
    (q : AISearchRequest) (p : RecommendRequest) (user_id : option string) :
  0 ≤ n →
  (reachable st = true → is_ok (get_documents c f n st) = true)
  ∧ (∀ docs, get_documents c f n st = Ok docs → Z.of_nat (length docs) ≤ n)
  ∧ (length (returned sr_results (ai_search db q)) ≤ 10)%nat
  ∧ (length (returned recommendations (ai_recommend db st p)) ≤ 5)%nat
  ∧ (length (returned invoices (list_invoices db st user_id)) ≤ 50)%nat.
Proof.
  intros Hn. split_and!.
  - intros Hr. simpl. by rewrite spec_get_documents_returns.
  - intros docs. apply spec_get_documents_bound.
  - apply ai_search_bound.
  - apply Nat2Z.inj_le. unfold ai_recommend.
    by apply (returned_limited recommendations
                (λ l, {| rr_user_id := rq_user_id p; recommendations := l |})).
  - apply Nat2Z.inj_le. unfold list_invoices.
    by apply (returned_limited invoices (λ l, {| invoices := l |})).
Qed.

Lemma limits_bound_results_witness :
  0 ≤ 2
  ∧ (reachable sample_store = true →
     is_ok (@get_documents Store (@spec_adapter sample_runtime) "book" ∅ 2 sample_store) = true)
  ∧ (∀ docs, @get_documents Store (@spec_adapter sample_runtime) "book" ∅ 2 sample_store = Ok docs →
             Z.of_nat (length docs) ≤ 2)
  ∧ (length (returned sr_results
       (@ai_search sample_runtime (Some sample_db) {| query_text := "u" |})) ≤ 10)%nat
  ∧ (length (returned recommendations
       (@ai_recommend sample_runtime Store (@spec_adapter sample_runtime)
          (Some sample_db) sample_store {| rq_user_id := "u1" |})) ≤ 5)%nat
  ∧ (length (returned invoices
       (@list_invoices sample_runtime Store (@spec_adapter sample_runtime)
          (Some sample_db) sample_store None)) ≤ 50)%nat.
Proof.
  split; [lia |].
  apply (@limits_bound_results sample_runtime (Some sample_db) sample_store "book" ∅ 2
           {| query_text := "u" |} {| rq_user_id := "u1" |} None).
  lia.
Defined.

(** Three books are stored and the limit 2 keeps the first two. *)
Example get_documents_limit_2 :
  length <$> @get_documents Store (@spec_adapter sample_runtime) "book" ∅ 2 sample_store
  = Ok 2%nat.
Proof. vm_compute. reflexivity. Qed.

(** ** The search fallback *)

Lemma search_books_truthy (d : Database) (q : query) :
  db_bool d = Ok true →
  search_books (Some d) q = (docs ← db_find d "book" q; Ok (take 10 docs)).
Proof. intros Hb. unfold search_books. rewrite Hb. reflexivity. Qed.

(** The response of [ai_search] always echoes the query. *)
Lemma ai_search_echoes_query `{Runtime} (db : option Database) (q : AISearchRequest)
    (resp : AISearchResponse) :
  ai_search db q = Ok resp → sr_query resp = query_text q.
Proof.
  unfold ai_search. intros Hres.
  apply bind_Ok in Hres as (docs & _ & Hres).
  apply bind_Ok in Hres as (rs & _ & Hres).
  by injection Hres as <-.
Qed.

(** The primary path: a full-text query that answers is used as it is. *)
Lemma ai_search_primary `{Runtime} (d : Database) (q : string) (docs : list document) :
  db_bool d = Ok true →
  db_find d "book" (QText q) = Ok docs →
  ai_search (Some d) {| query_text := q |}
  = (results ← for_each stringify_id (take 10 docs);
     Ok {| sr_query := q; sr_results := results |}).
Proof.
  intros Hb Htext. unfold ai_search. cbn [query_text].
  rewrite !search_books_truthy by done. by rewrite Htext.
Qed.

(** C1: when the full-text query on the book collection raises, the
    outcome of [ai_search] is that of the case-insensitive regex query on
    the title, cut at 10 records and with identifiers turned into strings;
    the error of the full-text query is not reported.  A response of the
    fallback has the shape of any other response: the query as sent and a
    sequence of records. *)
Theorem ai_search_falls_back `{Runtime} (d : Database) (q : string) (e : exn) :
  db_bool d = Ok true →
  db_find d "book" (QText q) = Raise e →
  ai_search (Some d) {| query_text := q |}
  = (docs ← db_find d "book" (QRegex "title" q "i");
     results ← for_each stringify_id (take 10 docs);
     Ok {| sr_query := q; sr_results := results |})
  ∧ (∀ docs, db_find d "book" (QRegex "title" q "i") = Ok docs →
             (∀ r, r ∈ take 10 docs → is_Some (r !! "_id")) →
             ∃ results, ai_search (Some d) {| query_text := q |}
                        = Ok {| sr_query := q; sr_results := results |}
                        ∧ length results = length (take 10 docs))
  ∧ (∀ resp, ai_search (Some d) {| query_text := q |} = Ok resp → sr_query resp = q).
Proof.
  intros Hb Htext.
  assert (Heq : ai_search (Some d) {| query_text := q |}
    = (docs ← db_find d "book" (QRegex "title" q "i");
       results ← for_each stringify_id (take 10 docs);
       Ok {| sr_query := q; sr_results := results |})).
  { unfold ai_search. cbn [query_text].
    rewrite !search_books_truthy by done. rewrite Htext. simpl.
    by destruct (db_find d "book" (QRegex "title" q "i")). }
  split; [exact Heq |]. split.
  - intros docs Hregex Hids. rewrite Heq, Hregex. simpl.
    destruct (for_each_total stringify_id (take 10 docs)) as (results & Hresults).
    { intros r Hr. destruct (Hids r Hr) as (v & Hv).
      unfold stringify_id. by rewrite Hv. }
    rewrite Hresults. simpl. exists results. split; [done |].
    by eapply for_each_Ok_length.
  - intros resp Hresp. by apply ai_search_echoes_query in Hresp.
Qed.

Lemma ai_search_falls_back_witness :
  db_bool sample_db = Ok true
  ∧ db_find sample_db "book" (QText "u")
    = Raise (Exn (OtherError "OperationFailure") "text index required for $text query")
  ∧ @ai_search sample_runtime (Some sample_db) {| query_text := "u" |}
    = (docs ← db_find sample_db "book" (QRegex "title" "u" "i");
       results ← for_each (@stringify_id sample_runtime) (take 10 docs);
       Ok {| sr_query := "u"; sr_results := results |}).
Proof.
  split; [reflexivity |]. split; [reflexivity |].
  exact (proj1 (@ai_search_falls_back sample_runtime sample_db "u" _ eq_refl eq_refl)).
Defined.

(** On the sample handle the fallback answers with the three books. *)
Example ai_search_fallback_run :
  (λ resp, (sr_query resp, length (sr_results resp)))
    <$> @ai_search sample_runtime (Some sample_db) {| query_text := "u" |}
  = Ok ("u", 3%nat).
Proof. vm_compute. reflexivity. Qed.

(** The fallback itself is outside the [try]: an error of the regex query
    reaches the caller. *)
Lemma ai_search_fallback_unguarded `{Runtime} (d : Database) (q : string) (e e' : exn) :
  db_bool d = Ok true →
  db_find d "book" (QText q) = Raise e →
  db_find d "book" (QRegex "title" q "i") = Raise e' →
  ai_search (Some d) {| query_text := q |} = Raise e'.
Proof.
  intros Hb Htext Hregex. unfold ai_search. cbn [query_text].
  rewrite !search_books_truthy by done. by rewrite Htext, Hregex.
Qed.

(** ** Subscriptions *)

Lemma datetime_add_days_in_range (t : datetime) (d : Z) :
  0 ≤ t + d * us_per_day < datetime_end →
  datetime_add_days t d = Ok (t + d * us_per_day).
Proof.
  intros [Hlo Hhi]. unfold datetime_add_days. cbv zeta.
  destruct (Z.leb_spec 0 (t + d * us_per_day)); [| lia].
  destruct (Z.ltb_spec (t + d * us_per_day) datetime_end); [done | lia].
Qed.

Lemma with_id_lookup_id (x : string) (d : document) :
  d !! "id" = None → with_id x d !! "id" = Some (VStr x).
Proof.
  intros Hd. unfold with_id.
  rewrite lookup_union_r by done. by rewrite lookup_singleton_eq.
Qed.

Lemma with_id_lookup_field (x k : string) (d : document) :
  k ≠ "id" → with_id x d !! k = d !! k.
Proof.
  intros Hk. unfold with_id.
  destruct (d !! k) as [v|] eqn:Hdk.
  - by apply lookup_union_Some_l.
  - rewrite lookup_union_r by done. by rewrite lookup_singleton_ne.
Qed.

Lemma spec_create_document_reachable `{Runtime} (c : string) (data : document)
    (st : Store) :
  str_truth c = true → reachable st = true →
  ∃ st', spec_create_document c data st = Ok (py_str (VObjectId (next_oid st)), st')
         ∧ reachable st' = true
         ∧ records_of st' c
           = (records_of st c ++ [<["_id" := VObjectId (next_oid st)]> data])%list
         ∧ ∀ c', c' ≠ c → records_of st' c' = records_of st c'.
Proof.
  intros Hc Hr. unfold spec_create_document. rewrite Hc, Hr.
  eexists. split; [reflexivity |]. split; [done |]. split.
  - unfold records_of at 1. simpl. by rewrite lookup_insert_eq.
  - intros c' Hc'. unfold records_of at 1. simpl. by rewrite lookup_insert_ne.
Qed.

(** Whatever the adapter, the record handed to [create_document] has the
    status "active" and renews 30 days after [now], and the response is
    that record with the identifier the adapter returned. *)
Lemma create_subscription_any_adapter `{Adapter St} (now : datetime) (st st' : St)
    (p : SubscriptionRequest) (resp : document) :
  create_subscription now st p = Ok (resp, st') →
  ∃ sub_id,
    create_document "subscription"
      (subscription_record p (now + 30 * us_per_day)) st = Ok (sub_id, st')
    ∧ resp = with_id sub_id (subscription_record p (now + 30 * us_per_day)).
Proof.
  unfold create_subscription. intros Hres.
  apply bind_Ok in Hres as (t & Ht & Hres).
  assert (t = now + 30 * us_per_day) as ->.
  { unfold datetime_add_days in Ht. cbv zeta in Ht.
    destruct (_ && _); by inversion Ht. }
  apply bind_Ok in Hres as ([sub_id st0] & Hcreate & Hres).
  injection Hres as <- <-. by exists sub_id.
Qed.

(** C7: on a store that can be reached, [create_subscription] persists one
    new subscription record whose status is "active" and whose [renews_at]
    is the creation time plus 30 days, next to the request's [user_id] and
    [plan]; the response holds the new identifier under [id] and the same
    four fields, and nothing else. *)
Theorem create_subscription_defaults `{Runtime} (now : datetime) (st : Store)
    (p : SubscriptionRequest) :
  reachable st = true →
  0 ≤ now →
  now + 30 * us_per_day < datetime_end →
  ∃ oid resp st' stored,
    create_subscription now st p = Ok (resp, st')
    ∧ records_of st' "subscription" = (records_of st "subscription" ++ [stored])%list
    ∧ stored !! "_id" = Some oid
    ∧ stored !! "user_id" = Some (VStr (sq_user_id p))
    ∧ stored !! "plan" = Some (VStr (plan p))
    ∧ stored !! "status" = Some (VStr "active")
    ∧ stored !! "renews_at" = Some (VDatetime (now + 30 * us_per_day))
    ∧ resp !! "id" = Some (VStr (py_str oid))
    ∧ (∀ k, k ∈ ["user_id"; "plan"; "status"; "renews_at"] → resp !! k = stored !! k)
    ∧ dom resp = ({["id"; "user_id"; "plan"; "status"; "renews_at"]} : gset string).
Proof.
  intros Hr Hlo Hhi.
  set (sub := subscription_record p (now + 30 * us_per_day)).
  destruct (spec_create_document_reachable "subscription" sub st eq_refl Hr)
    as (st' & Hcreate & _ & Hrecords & _).
  exists (VObjectId (next_oid st)), (with_id (py_str (VObjectId (next_oid st))) sub),
    st', (<["_id" := VObjectId (next_oid st)]> sub).
  split_and!.
  - unfold create_subscription.
    rewrite datetime_add_days_in_range by (unfold us_per_day in *; lia).
    simpl. fold sub. by rewrite Hcreate.
  - exact Hrecords.
  - by simplify_map_eq.
  - by simplify_map_eq.
  - by simplify_map_eq.
  - by simplify_map_eq.
  - by simplify_map_eq.
  - by apply with_id_lookup_id.
  - intros k Hk.
    assert (Hne : k ≠ "id" ∧ k ≠ "_id").
    { rewrite !elem_of_cons, elem_of_nil in Hk.
      destruct Hk as [-> | [-> | [-> | [-> | []]]]]; by split. }
    destruct Hne as [Hid Hoid].
    rewrite with_id_lookup_field by done. by rewrite lookup_insert_ne.
  - unfold with_id, sub, subscription_record.
    rewrite dom_union_L, !dom_insert_L, dom_empty_L, dom_singleton_L. set_solver.
Qed.

Lemma create_subscription_defaults_witness :
  let now := 739924 * us_per_day in
  let p := {| sq_user_id := "u1"; plan := "pro" |} in
  reachable sample_store = true
  ∧ 0 ≤ now
  ∧ now + 30 * us_per_day < datetime_end
  ∧ ∃ oid resp st' stored,
      @create_subscription Store (@spec_adapter sample_runtime) now sample_store p
      = Ok (resp, st')
      ∧ records_of st' "subscription"
        = (records_of sample_store "subscription" ++ [stored])%list
      ∧ stored !! "_id" = Some oid
      ∧ stored !! "user_id" = Some (VStr (sq_user_id p))
      ∧ stored !! "plan" = Some (VStr (plan p))
      ∧ stored !! "status" = Some (VStr "active")
      ∧ stored !! "renews_at" = Some (VDatetime (now + 30 * us_per_day))
      ∧ resp !! "id" = Some (VStr (@py_str sample_runtime oid))
      ∧ (∀ k, k ∈ ["user_id"; "plan"; "status"; "renews_at"] → resp !! k = stored !! k)
      ∧ dom resp = ({["id"; "user_id"; "plan"; "status"; "renews_at"]} : gset string).
Proof.
  intros now p.
  split; [reflexivity |]. split; [by vm_compute |]. split; [reflexivity |].
  apply (@create_subscription_defaults sample_runtime now sample_store p);
    [reflexivity | by vm_compute | reflexivity].
Defined.

(** ** Collection names *)

Lemma collection_names :
  collection_of "ForumPost" = "forumpost"
  ∧ collection_of "Subscription" = "subscription"
  ∧ collection_of "Book" = "book"
  ∧ collection_of "Invoice" = "invoice".
Proof. by split_and!. Qed.

(** C8: each handler that touches the store does so through the adapter
    (or, for [ai_search], the handle) at the collection named by the
    lower-cased schema class: "forumpost" for ForumPost, "subscription"
    for Subscription, "book" for Book and "invoice" for Invoice, each of
    them a class the schema index lists. *)
Theorem handlers_use_class_collections `{Runtime} `{Adapter St}
    (d : Database) (st : St) (now : datetime)
    (fp : ForumPostIn) (sq : SubscriptionRequest) (rq : RecommendRequest)
    (q : string) (user_id tag : option string) :
  db_bool d = Ok true →
  create_forum_post st fp
  = ('(post_id, st') ← create_document (collection_of "ForumPost") (forum_post_dict fp) st;
     Ok (with_id post_id (forum_post_dict fp), st'))
  ∧ list_forum_posts (Some d) st tag
    = (ps ← get_documents (collection_of "ForumPost") (optional_filter "tags" tag) 50 st;
       Ok {| posts := stringify_id_if_present <$> ps |})
  ∧ create_subscription now st sq
    = (renews_at ← datetime_add_days now 30;
       '(sub_id, st') ← create_document (collection_of "Subscription")
                          (subscription_record sq renews_at) st;
       Ok (with_id sub_id (subscription_record sq renews_at), st'))
  ∧ list_invoices (Some d) st user_id
    = (docs ← get_documents (collection_of "Invoice")
                (optional_filter "user_id" user_id) 50 st;
       Ok {| invoices := stringify_id_if_present <$> docs |})
  ∧ ai_recommend (Some d) st rq
    = (items ← get_documents (collection_of "Book")
                 {["available" := MEq (VBool true)]} 5 st;
       Ok {| rr_user_id := rq_user_id rq;
             recommendations := stringify_id_if_present <$> items |})
  ∧ ai_search (Some d) {| query_text := q |}
    = (results ← try_except
         (docs ← db_find d (collection_of "Book") (QText q); Ok (take 10 docs))
         (λ _, docs ← db_find d (collection_of "Book") (QRegex "title" q "i");
               Ok (take 10 docs));
       results ← for_each stringify_id results;
       Ok {| sr_query := q; sr_results := results |})
  ∧ ∀ cls, cls ∈ ["ForumPost"; "Subscription"; "Invoice"; "Book"] →
      ∃ idx, get_schema_index (Ok schemas_module) = Ok idx ∧ cls ∈ models idx.
Proof.
  intros Hb.
  destruct collection_names as (-> & -> & -> & ->).
  split_and!.
  - reflexivity.
  - unfold list_forum_posts. simpl. by rewrite Hb.
  - reflexivity.
  - unfold list_invoices. simpl. by rewrite Hb.
  - unfold ai_recommend. simpl. by rewrite Hb.
  - unfold ai_search. cbn [query_text]. by rewrite !search_books_truthy.
  - intros cls Hcls. eexists. split; [apply schema_index_models_eq |].
    simpl. rewrite !elem_of_cons, elem_of_nil in Hcls. rewrite !elem_of_cons.
    destruct Hcls as [-> | [-> | [-> | [-> | []]]]]; tauto.
Qed.

Lemma handlers_use_class_collections_witness :
  db_bool sample_db = Ok true
  ∧ @list_forum_posts sample_runtime Store (@spec_adapter sample_runtime)
      (Some sample_db) sample_store None
    = (ps ← @get_documents Store (@spec_adapter sample_runtime)
              (collection_of "ForumPost") (optional_filter "tags" None) 50 sample_store;
       Ok {| posts := @stringify_id_if_present sample_runtime <$> ps |}).
Proof.
  split; [reflexivity |].
  pose proof (@handlers_use_class_collections sample_runtime Store
                (@spec_adapter sample_runtime) sample_db sample_store 0
                {| fp_user_id := "u1"; fp_title := "t"; fp_content := "c"; fp_tags := [] |}
                {| sq_user_id := "u1"; plan := "pro" |} {| rq_user_id := "u1" |}
                "u" None None eq_refl) as Huse.
  exact (proj1 (proj2 Huse)).
Defined.

(** Two versions of the adapter that behave alike on one collection. *)
Lemma forum_handlers_depend_on_forumpost_only `{Runtime} {St} (A1 A2 : Adapter St)
    (db : option Database) (st : St) (fp : ForumPostIn) (tag : option string) :
  (∀ data s, @create_document St A1 "forumpost" data s
             = @create_document St A2 "forumpost" data s) →
  (∀ f n s, @get_documents St A1 "forumpost" f n s
            = @get_documents St A2 "forumpost" f n s) →
  @create_forum_post St A1 st fp = @create_forum_post St A2 st fp
  ∧ @list_forum_posts _ St A1 db st tag = @list_forum_posts _ St A2 db st tag.
Proof.
  intros Hcreate Hget. split.
  - unfold create_forum_post. by rewrite Hcreate.
  - unfold list_forum_posts. by rewrite Hget.
Qed.

(** On the store of the specification a forum post lands in "forumpost"
    and in no other collection. *)
Lemma create_forum_post_lands `{Runtime} (st : Store) (fp : ForumPostIn) :
  reachable st = true →
  ∃ resp st', create_forum_post st fp = Ok (resp, st')
    ∧ records_of st' "forumpost"
      = (records_of st "forumpost"
         ++ [<["_id" := VObjectId (next_oid st)]> (forum_post_dict fp)])%list
    ∧ ∀ c, c ≠ "forumpost" → records_of st' c = records_of st c.
Proof.
  intros Hr.
  destruct (spec_create_document_reachable "forumpost" (forum_post_dict fp) st
              eq_refl Hr) as (st' & Hcreate & _ & Hrecords & Hothers).
  exists (with_id (py_str (VObjectId (next_oid st))) (forum_post_dict fp)), st'.
  split; [| done].
  unfold create_forum_post. simpl. by rewrite Hcreate.
Qed.

(** ** Summaries *)

Lemma lstrip_truth (s : PyStr.t) : PyStr.truth (PyStr.lstrip s) = nonblank s.
Proof.
  induction s as [|c s IH]; simpl; [done |].
  destruct (PyStr.is_space c); simpl; [exact IH | done].
Qed.

Lemma nonblank_lstrip (s : PyStr.t) : nonblank (PyStr.lstrip s) = nonblank s.
Proof.
  induction s as [|c s IH]; simpl; [done |].
  destruct (PyStr.is_space c) eqn:Hc; simpl; [exact IH |].
  by rewrite Hc.
Qed.

Lemma nonblank_rev (s : PyStr.t) : nonblank (rev s) = nonblank s.
Proof.
  induction s as [|c s IH]; simpl; [done |].
  unfold nonblank in *. rewrite existsb_app, IH. simpl.
  rewrite orb_false_r. apply orb_comm.
Qed.

Lemma truth_rev (s : PyStr.t) : PyStr.truth (rev s) = PyStr.truth s.
Proof.
  destruct s as [|c s]; simpl; [done |].
  by destruct (rev s).
Qed.

(** Stripping leaves something exactly when the piece is more than
    whitespace. *)
Lemma strip_truth (s : PyStr.t) : PyStr.truth (PyStr.strip s) = nonblank s.
Proof.
  unfold PyStr.strip, PyStr.rstrip.
  by rewrite truth_rev, lstrip_truth, nonblank_rev, nonblank_lstrip.
Qed.

Lemma split_cons (sep : N) (s : PyStr.t) :
  ∃ piece pieces, PyStr.split sep s = piece :: pieces.
Proof.
  destruct s as [|c s]; simpl; [by eexists _, _ |].
  destruct (c =? sep)%N; [by eexists _, _ |].
  destruct (PyStr.split sep s); by eexists _, _.
Qed.

(** Turning newlines into spaces neither adds nor removes a dot. *)
Lemma split_replace (s : PyStr.t) :
  PyStr.split PyStr.DOT (PyStr.replace PyStr.NL PyStr.SPACE s)
  = PyStr.replace PyStr.NL PyStr.SPACE <$> PyStr.split PyStr.DOT s.
Proof.
  induction s as [|c s IH]; [done |].
  change (PyStr.replace PyStr.NL PyStr.SPACE (c :: s))
    with ((if (c =? PyStr.NL)%N then PyStr.SPACE else c)
          :: PyStr.replace PyStr.NL PyStr.SPACE s).
  cbn [PyStr.split]. rewrite IH.
  destruct (split_cons PyStr.DOT s) as (piece & pieces & ->).
  destruct (c =? PyStr.NL)%N eqn:Hnl.
  - apply N.eqb_eq in Hnl as ->. reflexivity.
  - destruct (c =? PyStr.DOT)%N; [done |].
    cbn [fmap list_fmap PyStr.replace]. by rewrite Hnl.
Qed.

Lemma nonblank_replace (s : PyStr.t) :
  nonblank (PyStr.replace PyStr.NL PyStr.SPACE s) = nonblank s.
Proof.
  induction s as [|c s IH]; [done |].
  change (PyStr.replace PyStr.NL PyStr.SPACE (c :: s))
    with ((if (c =? PyStr.NL)%N then PyStr.SPACE else c)
          :: PyStr.replace PyStr.NL PyStr.SPACE s).
  cbn [nonblank existsb]. fold (nonblank (PyStr.replace PyStr.NL PyStr.SPACE s)).
  fold (nonblank s). rewrite IH.
  by destruct (N.eqb_spec c PyStr.NL) as [-> | Hnl].
Qed.

Lemma filter_fmap_length {A B} (f : A → B) (P : B → bool) (l : list A) :
  length (List.filter P (f <$> l)) = length (List.filter (λ x, P (f x)) l).
Proof.
  induction l as [|x l IH]; [done |].
  cbn [fmap list_fmap List.filter]. cbn [fmap] in IH.
  destruct (P (f x)); cbn [length]; by rewrite IH.
Qed.

(** The sentences the handler keeps are as many as the text has non-empty
    sentences. *)
Lemma sentences_of_length (text : PyStr.t) :
  length (sentences_of text) = sentence_count text.
Proof.
  unfold sentences_of, sentence_count.
  rewrite length_fmap, split_replace, filter_fmap_length.
  f_equal. apply filter_ext. intros s.
  by rewrite strip_truth, nonblank_replace.
Qed.



(** Two of the three pieces are sentences; with room for five both are
    used. *)
Example ai_summary_run :
  ai_summary {| text := PyStr.of_string "Hello world.  . Bye"; max_sentences := 5 |}
  = Ok {| summary := PyStr.of_string "Hello world. Bye."; sentences_used := 2 |}.
Proof. vm_compute. reflexivity. Qed.

(** * Further properties *)

(** ** The schema index on any module *)

Lemma filter_sublist {A} (P : A → bool) (l : list A) : sublist (List.filter P l) l.
Proof.
  induction l as [|x l IH]; simpl; [constructor |].
  destruct (P x); by constructor.
Qed.

(** X1: for any module that binds [BaseModel] to a class, the schema
    endpoint answers; it lists a name exactly when the module binds that
    name, other than "BaseModel", to a subclass of that class, and it keeps
    the order of the module. *)
Theorem schema_index_characterised (s : namespace) (b : pyclass) :
  getattr s "BaseModel" = Ok (OType b) →
  ∃ idx, get_schema_index (Ok s) = Ok idx
         ∧ (∀ name, name ∈ models idx
              ↔ ∃ c, (name, OType c) ∈ s ∧ issubclass c b = true ∧ name ≠ "BaseModel")
         ∧ sublist (models idx) (s.*1).
Proof.
  intros Hb. eexists. split; [by apply get_schema_index_total |]. simpl. split.
  - intros name. rewrite list_elem_of_fmap. split.
    + intros ([n o] & -> & Hin). simpl.
      apply list_elem_of_In, filter_In in Hin as [Hin Hm].
      unfold declares_model in Hm. simpl in Hm.
      destruct o as [c| | | |]; try discriminate.
      apply andb_true_iff in Hm as [Hsub Hne].
      exists c. split_and!; [by apply list_elem_of_In | done |].
      intros ->. discriminate.
    + intros (c & Hin & Hsub & Hne).
      exists (name, OType c). split; [done |].
      apply list_elem_of_In, filter_In. split; [by apply list_elem_of_In |].
      unfold declares_model. simpl. rewrite Hsub. simpl.
      by destruct (String.eqb_spec name "BaseModel").
  - apply fmap_sublist, filter_sublist.
Qed.

Lemma schema_index_characterised_witness :
  getattr schemas_module "BaseModel" = Ok (OType BaseModel_class)
  ∧ ∃ idx, get_schema_index (Ok schemas_module) = Ok idx
           ∧ (∀ name, name ∈ models idx
                ↔ ∃ c, (name, OType c) ∈ schemas_module
                       ∧ issubclass c BaseModel_class = true ∧ name ≠ "BaseModel")
           ∧ sublist (models idx) (schemas_module.*1).
Proof.
  split; [reflexivity |].
  exact (schema_index_characterised schemas_module BaseModel_class eq_refl).
Defined.

Lemma get_schema_index_raises (imported : result namespace) (e : exn) :
  get_schema_index imported = Raise e →
  ∃ e1, e = HTTPException 500 (exn_str e1)
        ∧ (∀ e0, imported = Raise e0 → e1 = e0).
Proof.
  unfold get_schema_index, try_except. intros Hres.
  destruct imported as [s|e0]; simpl in Hres.
  - destruct (model_names s s) as [names|e1]; simpl in Hres; [discriminate |].
    injection Hres as <-. exists e1. split; [done | discriminate].
  - injection Hres as <-. exists e0. split; [done |]. by intros e1 [= <-].
Qed.

(** X2: an error of the class [Exception] raised while the schema endpoint
    imports or scans the module reaches the caller as an [HTTPException]
    with status 500, and as nothing else; when the import itself fails
    with such an error, the detail is its text.  What the import raises
    outside [Exception] is not caught: it reaches the caller as it is.
    The endpoint answers only if the module was imported. *)
Theorem schema_index_errors_are_500 (imported : import_outcome) :
  match schema_endpoint imported with
  | Answers idx => ∃ s, imported = Imported s ∧ get_schema_index (Ok s) = Ok idx
  | Fails e =>
      (∃ detail, e = HTTPException 500 detail)
      ∧ (∀ e0, imported = ImportFails e0 → e = HTTPException 500 (exn_str e0))
      ∧ ∀ name, imported ≠ ImportAborts name
  | Aborts name => imported = ImportAborts name
  end.
Proof.
  destruct imported as [s|e0|name]; simpl; [| | done].
  - destruct (get_schema_index (Ok s)) as [idx|e] eqn:Hres; simpl.
    + by exists s.
    + destruct (get_schema_index_raises _ _ Hres) as (e1 & -> & _).
      split_and!; [by eexists | discriminate | discriminate].
  - split_and!; [by eexists | by intros e2 [= <-] | discriminate].
Qed.

(** A missing module gives status 500 with the text of the import error; an
    interrupt during the import is not turned into a response. *)
Example schema_endpoint_runs :
  schema_endpoint
    (ImportFails (Exn (OtherError "ModuleNotFoundError") "No module named 'schemas'"))
  = Fails (HTTPException 500 "No module named 'schemas'")
  ∧ schema_endpoint (ImportAborts "KeyboardInterrupt") = Aborts "KeyboardInterrupt".
Proof. by split. Qed.

Lemma model_names_no_class (s items : namespace) :
  existsb binds_class items = false → model_names s items = Ok [].
Proof.
  induction items as [|[name obj] items IH]; simpl; [done |].
  intros [Hobj Hrest]%orb_false_iff. rewrite (IH Hrest).
  destruct obj; simpl in *; done.
Qed.

Lemma model_names_unbound_base (s items : namespace) (e : exn) :
  getattr s "BaseModel" = Raise e →
  existsb binds_class items = true → model_names s items = Raise e.
Proof.
  intros Hb. induction items as [|[name obj] items IH]; simpl; [done |].
  destruct obj as [c| | | |]; simpl; try (intros Hrest; by rewrite (IH Hrest)).
  intros _. by rewrite Hb.
Qed.

(** X3: on a module that does not bind [BaseModel], the schema endpoint
    answers with an empty list when the module binds no class at all, and
    fails with status 500 as soon as it binds one. *)
Theorem schema_index_without_base (s : namespace) (e : exn) :
  getattr s "BaseModel" = Raise e →
  get_schema_index (Ok s)
  = if existsb binds_class s
    then Raise (HTTPException 500 (exn_str e))
    else Ok {| models := [] |}.
Proof.
  intros Hb. unfold get_schema_index. simpl.
  destruct (existsb binds_class s) eqn:Hs.
  - by rewrite (model_names_unbound_base s s e Hb Hs).
  - by rewrite (model_names_no_class s s Hs).
Qed.

Lemma schema_index_without_base_witness :
  let s : namespace := [("__name__", OStr "schemas"); ("datetime", OType datetime_class)] in
  let e := Exn AttributeError "module has no attribute BaseModel" in
  getattr s "BaseModel" = Raise e
  ∧ get_schema_index (Ok s) = Raise (HTTPException 500 (exn_str e)).
Proof.
  intros s e. split; [reflexivity |].
  exact (schema_index_without_base s e eq_refl).
Defined.

(** ** Role permissions *)

Lemma rbac_cases (role : string) :
  (role = "admin"
   ∧ rb_permissions (rbac role) = ["manage_users"; "manage_books"; "view_reports"; "billing"])
  ∨ (role = "librarian" ∧ rb_permissions (rbac role) = ["manage_books"; "transactions"])
  ∨ (role = "member" ∧ rb_permissions (rbac role) = ["borrow"; "read"])
  ∨ (role ≠ "admin" ∧ role ≠ "librarian" ∧ role ≠ "member"
     ∧ rb_permissions (rbac role) = []).
Proof.
  unfold rbac, role_permissions. simpl.
  destruct (decide (role = "member")) as [-> | Hm]; [by right; right; left |].
  destruct (decide (role = "librarian")) as [-> | Hl]; [by right; left |].
  destruct (decide (role = "admin")) as [-> | Ha]; [by left |].
  right; right; right. split_and!; try done.
  by rewrite !lookup_insert_ne, lookup_empty.
Qed.

(** X4: [rbac] echoes the role it was asked about and grants something
    exactly to the three roles "admin", "librarian" and "member", spelled as
    here; any other role, also one that differs only in case, gets the
    empty list. *)
Theorem rbac_known_roles (role : string) :
  rb_role (rbac role) = role
  ∧ (rb_permissions (rbac role) ≠ [] ↔ role ∈ ["admin"; "librarian"; "member"]).
Proof.
  split; [reflexivity |].
  rewrite !elem_of_cons, elem_of_nil.
  destruct (rbac_cases role) as [[-> ->] | [[-> ->] | [[-> ->] | (Ha & Hl & Hm & ->)]]];
    split; try done; try tauto.
Qed.

(** X5: the permissions "manage_users", "view_reports" and "billing" are
    granted to the role "admin" and to no other role, and "manage_books" to
    "admin" and "librarian" only. *)
Theorem rbac_admin_only (role perm : string) :
  (perm ∈ ["manage_users"; "view_reports"; "billing"] →
   perm ∈ rb_permissions (rbac role) ↔ role = "admin")
  ∧ ("manage_books" ∈ rb_permissions (rbac role)
     ↔ role = "admin" ∨ role = "librarian").
Proof.
  destruct (rbac_cases role) as [[-> ->] | [[-> ->] | [[-> ->] | (Ha & Hl & Hm & ->)]]];
    (split; [intros Hperm; rewrite !elem_of_cons, elem_of_nil in Hperm |]);
    rewrite ?elem_of_cons, ?elem_of_nil;
    try (destruct Hperm as [-> | [-> | [-> | []]]]);
    rewrite ?elem_of_cons, ?elem_of_nil;
    split; try done; intuition (try discriminate; try done).
Qed.

(** X6: whoever logs in, with whatever credentials, holds a role to which
    [rbac] grants every administrative permission. *)
Theorem login_grants_admin (payload : LoginRequest) (r : LoginResponse) (role : string) :
  login payload = Ok r →
  user r !! "role" = Some (VStr role) →
  rb_permissions (rbac role)
  = ["manage_users"; "manage_books"; "view_reports"; "billing"].
Proof.
  intros [= <-]. simpl. rewrite lookup_insert_eq. by intros [= <-].
Qed.

Lemma login_grants_admin_witness :
  let payload := {| email := "a@b.c"; password := "" |} in
  let r := {| token := "demo.jwt.token";
              user := <["role" := VStr "admin"]>
                        (<["name" := VStr "Demo User"]>
                           (<["email" := VStr "a@b.c"]> ∅)) |} in
  login payload = Ok r
  ∧ user r !! "role" = Some (VStr "admin")
  ∧ rb_permissions (rbac "admin")
    = ["manage_users"; "manage_books"; "view_reports"; "billing"].
Proof.
  intros payload r.
  assert (Hrole : user r !! "role" = Some (VStr "admin")) by (vm_compute; reflexivity).
  split; [reflexivity |]. split; [exact Hrole |].
  exact (login_grants_admin payload r "admin" eq_refl Hrole).
Defined.

(** ** The database self-test *)

(** X7: the self-test reports "Connected" exactly when there is a handle
    and reading its name did not raise; otherwise it reports
    "Not Connected". *)
Theorem test_database_connected (db : option HandleProbe) (env_url env_name : option PyStr.t) :
  let r := test_database db env_url env_name in
  (tr_connection_status r = PyStr.of_string "Connected"
   ↔ ∃ h name, db = Some h ∧ probe_name h = Returns name)
  ∧ (tr_connection_status r ≠ PyStr.of_string "Connected" →
     tr_connection_status r = PyStr.of_string "Not Connected").
Proof.
  unfold test_database, test_database_probe. cbv zeta.
  destruct db as [h|]; simpl.
  - destruct (probe_name h) as [name|text] eqn:Hname.
    + destruct (probe_collections h); simpl; (split; [| done]);
        (split; [intros _; by exists h, name | done]).
    + simpl. split; [| done].
      split; [discriminate |]. intros (h' & name & [= <-] & Hh). congruence.
  - split; [| done].
    split; [discriminate |]. intros (h & name & Hdb & _). discriminate.
Qed.

(** X8: the self-test shows at most 10 collection names; it shows any only
    when the handle listed its collections without error, and then they
    are the first 10 of that list and the database is reported as
    connected and working. *)
Theorem test_database_collections (db : option HandleProbe)
    (env_url env_name : option PyStr.t) :
  let r := test_database db env_url env_name in
  (length (tr_collections r) ≤ 10)%nat
  ∧ (tr_collections r ≠ [] →
     ∃ h names, db = Some h ∧ probe_collections h = Returns names
                ∧ tr_collections r = take 10 names
                ∧ tr_database r = status_text CHECK_MARK " Connected & Working").
Proof.
  unfold test_database, test_database_probe. cbv zeta.
  destruct db as [h|]; simpl; [| split; [lia | done]].
  destruct (probe_name h) as [name|text]; simpl; [| split; [lia | done]].
  destruct (probe_collections h) as [names|text] eqn:Hnames; simpl;
    [| split; [lia | done]].
  split; [rewrite length_take; lia |].
  intros _. by exists h, names.
Qed.

(** X9: the fields [database_url] and [database_name] of the self-test only
    say whether the two environment variables are set and not empty; the
    name of the database handle never reaches the response. *)
Theorem test_database_hides_name (name1 name2 : option PyStr.t)
    (listing : outcome (list PyStr.t)) (db : option HandleProbe)
    (env_url env_name : option PyStr.t) :
  test_database (Some {| probe_name := Returns name1; probe_collections := listing |})
    env_url env_name
  = test_database (Some {| probe_name := Returns name2; probe_collections := listing |})
      env_url env_name
  ∧ tr_database_url (test_database db env_url env_name) = Some (env_status env_url)
  ∧ tr_database_name (test_database db env_url env_name) = Some (env_status env_name)
  ∧ (env_status env_url = status_text CHECK_MARK " Set"
     ↔ ∃ c s, env_url = Some (c :: s)).
Proof.
  split_and!; try reflexivity.
  - unfold test_database, test_database_probe. simpl. by destruct listing.
  - unfold env_status, env_truth. destruct env_url as [[|c s]|]; simpl.
    + split; [discriminate | intros (c & s & [=])].
    + split; [by exists c, s | done].
    + split; [discriminate | intros (c & s & [=])].
Qed.

(** X10: the text of an error is cut to 80 characters before it is put in
    the response, so the [database] field never exceeds 105 characters. *)
Theorem test_database_text_bounded (db : option HandleProbe)
    (env_url env_name : option PyStr.t) :
  (length (tr_database (test_database db env_url env_name)) ≤ 105)%nat.
Proof.
  unfold test_database, test_database_probe. cbv zeta.
  destruct db as [h|]; simpl; [| lia].
  destruct (probe_name h) as [name|text]; simpl.
  - destruct (probe_collections h) as [names|text]; simpl; [lia |].
    rewrite length_take. lia.
  - rewrite length_take. lia.
Qed.

(** ** The database handle in the listing endpoints *)

(** X11: when the truth test of the handle raises, the four listing
    endpoints raise that error; the fallback of [ai_search] does not help,
    because it tests the handle again. *)
Theorem listing_fails_on_untestable_handle `{Runtime} `{Adapter St}
    (d : Database) (st : St) (e : exn)
    (q : AISearchRequest) (p : RecommendRequest) (user_id tag : option string) :
  db_bool d = Raise e →
  ai_search (Some d) q = Raise e
  ∧ ai_recommend (Some d) st p = Raise e
  ∧ list_invoices (Some d) st user_id = Raise e
  ∧ list_forum_posts (Some d) st tag = Raise e.
Proof.
  intros Hb. split_and!.
  - unfold ai_search, search_books. by rewrite Hb.
  - unfold ai_recommend. simpl. by rewrite Hb.
  - unfold list_invoices. simpl. by rewrite Hb.
  - unfold list_forum_posts. simpl. by rewrite Hb.
Qed.

Lemma listing_fails_on_untestable_handle_witness :
  let e := Exn (OtherError "NotImplementedError")
             "Database objects do not implement truth value testing" in
  db_bool sample_untestable_db = Raise e
  ∧ @ai_search sample_runtime (Some sample_untestable_db) {| query_text := "u" |} = Raise e
  ∧ @ai_recommend sample_runtime Store (@spec_adapter sample_runtime)
      (Some sample_untestable_db) sample_store {| rq_user_id := "u1" |} = Raise e
  ∧ @list_invoices sample_runtime Store (@spec_adapter sample_runtime)
      (Some sample_untestable_db) sample_store None = Raise e
  ∧ @list_forum_posts sample_runtime Store (@spec_adapter sample_runtime)
      (Some sample_untestable_db) sample_store None = Raise e.
Proof.
  intros e. split; [reflexivity |].
  exact (@listing_fails_on_untestable_handle sample_runtime Store
           (@spec_adapter sample_runtime) sample_untestable_db sample_store e
           {| query_text := "u" |} {| rq_user_id := "u1" |} None None eq_refl).
Defined.

(** X12: with a handle that is absent or tests false, the four listing
    endpoints answer with an empty sequence and consult neither the driver
    nor the adapter: the answer is the same whatever these would return. *)
Theorem listing_empty_on_falsy_handle `{Runtime} `{Adapter St}
    (db : option Database) (st : St)
    (q : AISearchRequest) (p : RecommendRequest) (user_id tag : option string) :
  truth db = Ok false →
  ai_search db q = Ok {| sr_query := query_text q; sr_results := [] |}
  ∧ ai_recommend db st p = Ok {| rr_user_id := rq_user_id p; recommendations := [] |}
  ∧ list_invoices db st user_id = Ok {| invoices := [] |}
  ∧ list_forum_posts db st tag = Ok {| posts := [] |}.
Proof.
  intros Hb. split_and!.
  - unfold ai_search, search_books. destruct db as [d|]; [| done].
    simpl in Hb. by rewrite Hb.
  - unfold ai_recommend. by rewrite Hb.
  - unfold list_invoices. simpl. by rewrite Hb.
  - unfold list_forum_posts. simpl. by rewrite Hb.
Qed.

Lemma listing_empty_on_falsy_handle_witness :
  truth (Some sample_falsy_db) = Ok false
  ∧ @ai_search sample_runtime (Some sample_falsy_db) {| query_text := "u" |}
    = Ok {| sr_query := "u"; sr_results := [] |}
  ∧ @ai_recommend sample_runtime Store (@spec_adapter sample_runtime)
      (Some sample_falsy_db) sample_store {| rq_user_id := "u1" |}
    = Ok {| rr_user_id := "u1"; recommendations := [] |}
  ∧ @list_invoices sample_runtime Store (@spec_adapter sample_runtime)
      (Some sample_falsy_db) sample_store None = Ok {| invoices := [] |}
  ∧ @list_forum_posts sample_runtime Store (@spec_adapter sample_runtime)
      (Some sample_falsy_db) sample_store None = Ok {| posts := [] |}.
Proof.
  split; [reflexivity |].
  exact (@listing_empty_on_falsy_handle sample_runtime Store
           (@spec_adapter sample_runtime) (Some sample_falsy_db) sample_store
           {| query_text := "u" |} {| rq_user_id := "u1" |} None None eq_refl).
Defined.

(** ** Records without an identifier *)

Lemma for_each_stringify_missing `{Runtime} (l : list document) (r : document) :
  r ∈ l → r !! "_id" = None →
  for_each stringify_id l = Raise (Exn KeyError "'_id'").
Proof.
  intros Hr Hnone. induction l as [|x l IH]; [by apply elem_of_nil in Hr |].
  change (for_each stringify_id (x :: l))
    with (y ← stringify_id x; ys ← for_each stringify_id l; Ok (y :: ys)).
  destruct (x !! "_id") as [v|] eqn:Hx.
  - apply elem_of_cons in Hr as [-> | Hr]; [congruence |].
    rewrite (IH Hr). unfold stringify_id. by rewrite Hx.
  - unfold stringify_id. by rewrite Hx.
Qed.

(** X13: [ai_search] needs an identifier on each of the (at most 10) records
    it is about to return: if one of the first 10 records of the full-text
    query has no ["_id"], the request fails with a [KeyError]. *)
Theorem ai_search_requires_id `{Runtime} (d : Database) (q : string)
    (docs : list document) (r : document) :
  db_bool d = Ok true →
  db_find d "book" (QText q) = Ok docs →
  r ∈ take 10 docs →
  r !! "_id" = None →
  ai_search (Some d) {| query_text := q |} = Raise (Exn KeyError "'_id'").
Proof.
  intros Hb Htext Hr Hnone.
  rewrite (ai_search_primary d q docs Hb Htext).
  by rewrite (for_each_stringify_missing _ r Hr Hnone).
Qed.

Lemma ai_search_requires_id_witness :
  let docs : list document := [sample_book 0 "Dune" true; {["title" := VStr "Emma"]}] in
  let r : document := {["title" := VStr "Emma"]} in
  db_bool sample_projecting_db = Ok true
  ∧ db_find sample_projecting_db "book" (QText "e") = Ok docs
  ∧ r ∈ take 10 docs
  ∧ r !! "_id" = None
  ∧ @ai_search sample_runtime (Some sample_projecting_db) {| query_text := "e" |}
    = Raise (Exn KeyError "'_id'").
Proof.
  intros docs r.
  assert (Hr : r ∈ take 10 docs) by (right; left).
  assert (Hnone : r !! "_id" = None) by (vm_compute; reflexivity).
  split; [reflexivity |]. split; [reflexivity |]. split; [exact Hr |].
  split; [exact Hnone |].
  exact (@ai_search_requires_id sample_runtime sample_projecting_db "e" docs r
           eq_refl eq_refl Hr Hnone).
Defined.

(** ** What normalisation keeps *)

Lemma stringify_id_if_present_same `{Runtime} (r : document) :
  same_but_id r (stringify_id_if_present r).
Proof.
  unfold same_but_id, stringify_id_if_present.
  destruct (r !! "_id") as [v|] eqn:Hv; [| done]. split.
  - apply dom_insert_lookup_L. by eexists.
  - intros k Hk. by rewrite lookup_insert_ne.
Qed.

Lemma stringify_id_same `{Runtime} (r r' : document) :
  stringify_id r = Ok r' → same_but_id r r'.
Proof.
  unfold stringify_id. destruct (r !! "_id") as [v|] eqn:Hv; [| discriminate].
  intros [= <-]. split.
  - apply dom_insert_lookup_L. by eexists.
  - intros k Hk. by rewrite lookup_insert_ne.
Qed.

Lemma fmap_stringify_Forall2 `{Runtime} (docs : list document) :
  Forall2 same_but_id docs (stringify_id_if_present <$> docs).
Proof.
  induction docs as [|r docs IH]; simpl; constructor; [| exact IH].
  apply stringify_id_if_present_same.
Qed.

(** X14: when the handle tests true, each of the three adapter-backed
    listing endpoints returns the records of [get_documents] one for one
    and in the same order: every returned record has the keys of the
    record it comes from and the same value under each key other than
    ["_id"]. *)
Theorem listing_keeps_other_fields `{Runtime} `{Adapter St}
    (db : option Database) (st : St) (p : RecommendRequest)
    (user_id tag : option string) :
  truth db = Ok true →
  (∀ docs, get_documents "book" {["available" := MEq (VBool true)]} 5 st = Ok docs →
     ∃ resp, ai_recommend db st p = Ok resp
             ∧ Forall2 same_but_id docs (recommendations resp))
  ∧ (∀ docs, get_documents "invoice" (optional_filter "user_id" user_id) 50 st = Ok docs →
       ∃ resp, list_invoices db st user_id = Ok resp
               ∧ Forall2 same_but_id docs (invoices resp))
  ∧ (∀ docs, get_documents "forumpost" (optional_filter "tags" tag) 50 st = Ok docs →
       ∃ resp, list_forum_posts db st tag = Ok resp
               ∧ Forall2 same_but_id docs (posts resp)).
Proof.
  intros Hb. split_and!; intros docs Hdocs.
  - unfold ai_recommend. rewrite Hb. simpl. rewrite Hdocs. simpl.
    eexists. split; [reflexivity |]. apply fmap_stringify_Forall2.
  - unfold list_invoices. simpl. rewrite Hb. simpl. rewrite Hdocs. simpl.
    eexists. split; [reflexivity |]. apply fmap_stringify_Forall2.
  - unfold list_forum_posts. simpl. rewrite Hb. simpl. rewrite Hdocs. simpl.
    eexists. split; [reflexivity |]. apply fmap_stringify_Forall2.
Qed.

Lemma listing_keeps_other_fields_witness :
  truth (Some sample_db) = Ok true
  ∧ ∃ resp, @ai_recommend sample_runtime Store (@spec_adapter sample_runtime)
              (Some sample_db) sample_store {| rq_user_id := "u1" |} = Ok resp
            ∧ Forall2 same_but_id
                [sample_book 0 "Dune" true; sample_book 2 "Ulysses" true]
                (recommendations resp).
Proof.
  split; [reflexivity |].
  pose proof (@listing_keeps_other_fields sample_runtime Store
                (@spec_adapter sample_runtime) (Some sample_db) sample_store
                {| rq_user_id := "u1" |} None None eq_refl) as Hkeep.
  apply (proj1 Hkeep). vm_compute. reflexivity.
Defined.

(** X15: when the full-text query answers and each of its first 10
    records has an identifier, [ai_search] succeeds with these records, one
    for one and in order, changed in nothing but the value of ["_id"];
    the regex query and the records past the tenth play no part. *)
Theorem ai_search_keeps_other_fields `{Runtime} (d : Database) (q : string)
    (docs : list document) :
  db_bool d = Ok true →
  db_find d "book" (QText q) = Ok docs →
  (∀ r, r ∈ take 10 docs → is_Some (r !! "_id")) →
  ∃ results, ai_search (Some d) {| query_text := q |}
             = Ok {| sr_query := q; sr_results := results |}
             ∧ Forall2 same_but_id (take 10 docs) results.
Proof.
  intros Hb Htext Hids. rewrite (ai_search_primary d q docs Hb Htext).
  destruct (for_each_total stringify_id (take 10 docs)) as (results & Hresults).
  { intros r Hr. destruct (Hids r Hr) as (v & Hv).
    unfold stringify_id. by rewrite Hv. }
  rewrite Hresults. simpl. exists results. split; [done |].
  eapply for_each_Forall2; [| exact Hresults].
  intros x y. apply stringify_id_same.
Qed.

Lemma ai_search_keeps_other_fields_witness :
  let docs := records_of sample_store "book" in
  db_bool sample_indexed_db = Ok true
  ∧ db_find sample_indexed_db "book" (QText "u") = Ok docs
  ∧ (∀ r, r ∈ take 10 docs → is_Some (r !! "_id"))
  ∧ ∃ results, @ai_search sample_runtime (Some sample_indexed_db) {| query_text := "u" |}
               = Ok {| sr_query := "u"; sr_results := results |}
               ∧ Forall2 same_but_id (take 10 docs) results.
Proof.
  intros docs.
  assert (Hids : ∀ r, r ∈ take 10 docs → is_Some (r !! "_id")).
  { intros r Hr. vm_compute in Hr.
    apply elem_of_cons in Hr as [-> | Hr]; [by eexists |].
    apply elem_of_cons in Hr as [-> | Hr]; [by eexists |].
    apply elem_of_cons in Hr as [-> | Hr]; [by eexists |].
    by apply elem_of_nil in Hr. }
  split; [reflexivity |]. split; [reflexivity |]. split; [exact Hids |].
  exact (@ai_search_keeps_other_fields sample_runtime sample_indexed_db "u" docs
           eq_refl eq_refl Hids).
Defined.

(** ** Errors of the adapter *)

(** X16: the read endpoints have no fallback of their own: when the handle
    tests true and [get_documents] raises, the endpoint raises the same
    error. *)
Theorem read_endpoints_propagate `{Runtime} `{Adapter St}
    (db : option Database) (st : St) (p : RecommendRequest)
    (user_id tag : option string) (e : exn) :
  truth db = Ok true →
  (get_documents "book" {["available" := MEq (VBool true)]} 5 st = Raise e →
   ai_recommend db st p = Raise e)
  ∧ (get_documents "invoice" (optional_filter "user_id" user_id) 50 st = Raise e →
     list_invoices db st user_id = Raise e)
  ∧ (get_documents "forumpost" (optional_filter "tags" tag) 50 st = Raise e →
     list_forum_posts db st tag = Raise e).
Proof.
  intros Hb. split_and!; intros Hget.
  - unfold ai_recommend. rewrite Hb. simpl. by rewrite Hget.
  - unfold list_invoices. simpl. rewrite Hb. simpl. by rewrite Hget.
  - unfold list_forum_posts. simpl. rewrite Hb. simpl. by rewrite Hget.
Qed.

Lemma read_endpoints_propagate_witness :
  let e := Exn StoreUnavailable "store unreachable" in
  let A := @spec_adapter sample_runtime in
  truth (Some sample_db) = Ok true
  ∧ @get_documents Store A "invoice" (optional_filter "user_id" None) 50 sample_down_store
    = Raise e
  ∧ @list_invoices sample_runtime Store A (Some sample_db) sample_down_store None = Raise e.
Proof.
  intros e A.
  assert (Hget : @get_documents Store A "invoice" (optional_filter "user_id" None) 50
                   sample_down_store = Raise e) by reflexivity.
  split; [reflexivity |]. split; [exact Hget |].
  pose proof (@read_endpoints_propagate sample_runtime Store A (Some sample_db)
                sample_down_store {| rq_user_id := "u1" |} None None e eq_refl) as Hprop.
  exact (proj1 (proj2 Hprop) Hget).
Defined.

(** X17: the two writing endpoints answer only when [create_document] did:
    an error of the adapter reaches the caller unchanged, and a successful
    answer carries the store state the adapter produced. *)
Theorem write_endpoints_follow_adapter `{Adapter St} (now : datetime) (st : St)
    (fp : ForumPostIn) (sq : SubscriptionRequest) :
  0 ≤ now + 30 * us_per_day < datetime_end →
  (∀ e, create_document "forumpost" (forum_post_dict fp) st = Raise e →
        create_forum_post st fp = Raise e)
  ∧ (∀ e, create_document "subscription"
            (subscription_record sq (now + 30 * us_per_day)) st = Raise e →
          create_subscription now st sq = Raise e)
  ∧ (∀ resp st', create_forum_post st fp = Ok (resp, st') →
       ∃ post_id, create_document "forumpost" (forum_post_dict fp) st = Ok (post_id, st'))
  ∧ (∀ resp st', create_subscription now st sq = Ok (resp, st') →
       ∃ sub_id, create_document "subscription"
                   (subscription_record sq (now + 30 * us_per_day)) st = Ok (sub_id, st')).
Proof.
  intros Hnow. split_and!.
  - intros e He. unfold create_forum_post. by rewrite He.
  - intros e He. unfold create_subscription.
    rewrite datetime_add_days_in_range by done. simpl. by rewrite He.
  - intros resp st' Hres. unfold create_forum_post in Hres.
    apply bind_Ok in Hres as ([post_id st0] & Hcreate & Hres).
    injection Hres as _ <-. by exists post_id.
  - intros resp st' Hres.
    destruct (create_subscription_any_adapter now st st' sq resp Hres)
      as (sub_id & Hcreate & _).
    by exists sub_id.
Qed.

Lemma write_endpoints_follow_adapter_witness :
  let now := 739924 * us_per_day in
  let fp := {| fp_user_id := "u1"; fp_title := "t"; fp_content := "c"; fp_tags := [] |} in
  let e := Exn StoreUnavailable "store unreachable" in
  0 ≤ now + 30 * us_per_day < datetime_end
  ∧ @create_forum_post Store (@spec_adapter sample_runtime) sample_down_store fp = Raise e.
Proof.
  intros now fp e.
  assert (Hnow : 0 ≤ now + 30 * us_per_day < datetime_end) by (by vm_compute).
  split; [exact Hnow |].
  pose proof (@write_endpoints_follow_adapter Store (@spec_adapter sample_runtime) now
                sample_down_store fp {| sq_user_id := "u1"; plan := "pro" |} Hnow)
    as Hfollow.
  apply (proj1 Hfollow). reflexivity.
Defined.

(** ** Forum posts and filters *)

(** X18: a forum post is handed to the adapter with exactly the four
    fields of the request (no [likes], no identifier), and the answer holds
    these four fields, the tags in their order, next to the identifier the
    adapter returned. *)
Theorem create_forum_post_response `{Adapter St} (st st' : St) (fp : ForumPostIn)
    (post_id : string) :
  create_document "forumpost" (forum_post_dict fp) st = Ok (post_id, st') →
  dom (forum_post_dict fp) = ({["user_id"; "title"; "content"; "tags"]} : gset string)
  ∧ ∃ resp, create_forum_post st fp = Ok (resp, st')
            ∧ resp !! "id" = Some (VStr post_id)
            ∧ resp !! "user_id" = Some (VStr (fp_user_id fp))
            ∧ resp !! "title" = Some (VStr (fp_title fp))
            ∧ resp !! "content" = Some (VStr (fp_content fp))
            ∧ resp !! "tags" = Some (VList (VStr <$> fp_tags fp))
            ∧ dom resp = ({["id"; "user_id"; "title"; "content"; "tags"]} : gset string).
Proof.
  intros Hcreate. split.
  - unfold forum_post_dict. rewrite !dom_insert_L, dom_empty_L. set_solver.
  - exists (with_id post_id (forum_post_dict fp)). split_and!.
    + unfold create_forum_post. by rewrite Hcreate.
    + by apply with_id_lookup_id.
    + by rewrite with_id_lookup_field.
    + by rewrite with_id_lookup_field.
    + by rewrite with_id_lookup_field.
    + by rewrite with_id_lookup_field.
    + unfold with_id, forum_post_dict.
      rewrite dom_union_L, !dom_insert_L, dom_empty_L, dom_singleton_L. set_solver.
Qed.

Lemma create_forum_post_response_witness :
  let fp := {| fp_user_id := "u1"; fp_title := "t"; fp_content := "c";
               fp_tags := ["a"; "b"] |} in
  let A := @spec_adapter sample_runtime in
  ∃ st', @create_document Store A "forumpost" (forum_post_dict fp) sample_store
         = Ok ("oid###", st')
         ∧ ∃ resp, @create_forum_post Store A sample_store fp = Ok (resp, st')
                   ∧ resp !! "id" = Some (VStr "oid###")
                   ∧ resp !! "tags" = Some (VList [VStr "a"; VStr "b"]).
Proof.
  intros fp A. eexists. split; [reflexivity |].
  destruct (@create_forum_post_response Store A sample_store _ fp "oid###" eq_refl)
    as (_ & resp & Hres & Hid & _ & _ & _ & Htags & _).
  exists resp. by split_and!.
Defined.

(** X19: an empty [user_id] or [tag] counts as none: the listing is the
    one of a request without that parameter, not the records whose field
    is the empty string. *)
Theorem empty_parameter_is_no_filter `{Runtime} `{Adapter St}
    (db : option Database) (st : St) :
  list_invoices db st (Some "") = list_invoices db st None
  ∧ list_forum_posts db st (Some "") = list_forum_posts db st None
  ∧ ∀ k v, optional_filter k v = ∅ ↔ v = None ∨ v = Some "".
Proof.
  split_and!; [reflexivity.. |].
  intros k v. destruct v as [[|c s]|]; simpl.
  - split; [by right | done].
  - split; [| by intros [[=] | [=]]].
    intros Hempty. apply (f_equal (lookup k)) in Hempty.
    by rewrite lookup_singleton_eq, lookup_empty in Hempty.
  - split; [by left | done].
Qed.

(** ** The shape of a summary *)

Lemma lstrip_elem (s : PyStr.t) (c : N) : c ∈ PyStr.lstrip s → c ∈ s.
Proof.
  induction s as [|a s IH]; simpl; [done |].
  destruct (PyStr.is_space a); [| done].
  intros Hc. right. by apply IH.
Qed.

Lemma elem_of_rev {A} (l : list A) (x : A) : x ∈ rev l ↔ x ∈ l.
Proof. rewrite !list_elem_of_In. symmetry. apply in_rev. Qed.

Lemma strip_elem (s : PyStr.t) (c : N) : c ∈ PyStr.strip s → c ∈ s.
Proof.
  unfold PyStr.strip, PyStr.rstrip. rewrite elem_of_rev.
  intros Hc%lstrip_elem. rewrite elem_of_rev in Hc. by apply lstrip_elem.
Qed.

Lemma lstrip_idem (s : PyStr.t) : PyStr.lstrip (PyStr.lstrip s) = PyStr.lstrip s.
Proof.
  induction s as [|a s IH]; simpl; [done |].
  destruct (PyStr.is_space a) eqn:Ha; [exact IH |].
  simpl. by rewrite Ha.
Qed.

Lemma lstrip_head (s : PyStr.t) :
  PyStr.lstrip s = [] ∨ ∃ a s', PyStr.lstrip s = a :: s' ∧ PyStr.is_space a = false.
Proof.
  induction s as [|a s IH]; simpl; [by left |].
  destruct (PyStr.is_space a) eqn:Ha; [exact IH |].
  right. by exists a, s.
Qed.

Lemma lstrip_snoc_nonspace (s : PyStr.t) (a : N) :
  PyStr.is_space a = false → PyStr.lstrip (s ++ [a]) = (PyStr.lstrip s ++ [a])%list.
Proof.
  intros Ha. induction s as [|b s IH]; simpl; [by rewrite Ha |].
  by destruct (PyStr.is_space b).
Qed.

Lemma rstrip_cons_nonspace (s : PyStr.t) (a : N) :
  PyStr.is_space a = false → PyStr.rstrip (a :: s) = a :: PyStr.rstrip s.
Proof.
  intros Ha. unfold PyStr.rstrip. simpl.
  rewrite lstrip_snoc_nonspace by done. by rewrite rev_app_distr.
Qed.

(** A piece between two separators holds no separator and only characters
    of the text. *)
Lemma split_pieces (sep : N) (s : PyStr.t) (piece : PyStr.t) (c : N) :
  piece ∈ PyStr.split sep s → c ∈ piece → c ∈ s ∧ c ≠ sep.
Proof.
  revert piece. induction s as [|a s IH]; intros piece Hpiece Hc; simpl in Hpiece.
  - apply list_elem_of_singleton in Hpiece as ->. by apply elem_of_nil in Hc.
  - destruct (N.eqb_spec a sep) as [-> | Hne].
    + apply elem_of_cons in Hpiece as [-> | Hpiece]; [by apply elem_of_nil in Hc |].
      destruct (IH piece Hpiece Hc). split; [by right | done].
    + destruct (PyStr.split sep s) as [|p ps] eqn:Hsplit.
      * apply list_elem_of_singleton in Hpiece as ->.
        apply list_elem_of_singleton in Hc as ->. split; [left | done].
      * apply elem_of_cons in Hpiece as [-> | Hpiece].
        -- apply elem_of_cons in Hc as [-> | Hc]; [split; [left | done] |].
           destruct (IH p (list_elem_of_here _ _) Hc). split; [by right | done].
        -- destruct (IH piece (list_elem_of_further _ _ _ Hpiece) Hc).
           split; [by right | done].
Qed.

Lemma replace_no_newline (s : PyStr.t) (c : N) :
  c ∈ PyStr.replace PyStr.NL PyStr.SPACE s → c ≠ PyStr.NL.
Proof.
  unfold PyStr.replace. intros (a & -> & _)%list_elem_of_fmap.
  by destruct (N.eqb_spec a PyStr.NL).
Qed.

(** Every sentence the handler keeps is tidy. *)
Lemma sentences_of_tidy (text s : PyStr.t) : s ∈ sentences_of text → tidy s.
Proof.
  unfold sentences_of. intros (piece & -> & Hpiece)%list_elem_of_fmap.
  apply list_elem_of_In, filter_In in Hpiece as [Hpiece Htruth].
  apply list_elem_of_In in Hpiece.
  assert (Hchars : ∀ c, c ∈ PyStr.strip piece → c ≠ PyStr.DOT ∧ c ≠ PyStr.NL).
  { intros c Hc%strip_elem.
    destruct (split_pieces _ _ _ c Hpiece Hc) as [Hin Hdot].
    split; [done | by eapply replace_no_newline]. }
  unfold PyStr.strip in *.
  destruct (lstrip_head piece) as [Hu | (a & u & Hu & Ha)]; rewrite Hu in *.
  - discriminate.
  - rewrite rstrip_cons_nonspace in * by done. split_and!.
    + done.
    + simpl. by rewrite Ha.
    + rewrite <- (rstrip_cons_nonspace u a Ha). unfold PyStr.rstrip.
      rewrite rev_involutive. apply lstrip_idem.
    + exact Hchars.
Qed.

Lemma slice_to_elem {A} (k : Z) (l : list A) (x : A) : x ∈ slice_to k l → x ∈ l.
Proof.
  unfold slice_to. destruct (0 <=? k); by apply subseteq_take.
Qed.

Lemma slice_to_nonneg {A} (k : Z) (l : list A) :
  0 ≤ k → slice_to k l = take (Z.to_nat k) l.
Proof. intros Hk. unfold slice_to. by destruct (Z.leb_spec 0 k); [| lia]. Qed.

Lemma slice_to_nil {A} (k : Z) : slice_to k ([] : list A) = [].
Proof. unfold slice_to. by destruct (0 <=? k); rewrite take_nil. Qed.

Lemma join_elem (sep : PyStr.t) (parts : list PyStr.t) (c : N) :
  c ∈ PyStr.join sep parts → c ∈ sep ∨ ∃ p, p ∈ parts ∧ c ∈ p.
Proof.
  induction parts as [|p parts IH]; simpl; [by intros ?%elem_of_nil |].
  destruct parts as [|q parts].
  - intros Hc. right. exists p. split; [left | done].
  - rewrite !elem_of_app. intros [Hc | [Hc | Hc]].
    + right. exists p. split; [left | done].
    + by left.
    + destruct (IH Hc) as [Hsep | (p' & Hp' & Hc')]; [by left |].
      right. exists p'. split; [by right | done].
Qed.

(** X20: the summary is the empty text exactly when the text has no
    non-empty sentence; in every other case, also with [max_sentences]
    zero or negative, it ends with a dot. *)
Theorem summary_empty_or_dotted (p : SummaryRequest) :
  ∃ r, ai_summary p = Ok r
       ∧ (summary r = [] ↔ sentence_count (text p) = 0%nat)
       ∧ (sentence_count (text p) ≠ 0%nat → last (summary r) = Some PyStr.DOT).
Proof.
  eexists. split; [reflexivity |]. cbn [summary].
  rewrite <- sentences_of_length.
  destruct (sentences_of (text p)) as [|s ss] eqn:Hs.
  - rewrite slice_to_nil. simpl. done.
  - split.
    + split; [| done]. intros Hnil. by apply app_eq_nil in Hnil as [_ Hnil].
    + intros _. apply last_snoc.
Qed.

(** X21: a summary never holds a newline, wherever the text had them. *)
Theorem summary_has_no_newline (p : SummaryRequest) :
  ∃ r, ai_summary p = Ok r ∧ ∀ c, c ∈ summary r → c ≠ PyStr.NL.
Proof.
  eexists. split; [reflexivity |]. cbn [summary].
  intros c. rewrite elem_of_app. intros [Hc | Hc].
  - apply join_elem in Hc as [Hc | (s & Hs & Hc)].
    + change (PyStr.of_string ". ") with [PyStr.DOT; PyStr.SPACE] in Hc.
      rewrite !elem_of_cons, elem_of_nil in Hc.
      by destruct Hc as [-> | [-> | []]].
    + apply slice_to_elem, sentences_of_tidy in Hs as (_ & _ & _ & Hchars).
      by destruct (Hchars c Hc).
  - destruct (sentences_of (text p)); [by apply elem_of_nil in Hc |].
    change (PyStr.of_string ".") with [PyStr.DOT] in Hc.
    by apply list_elem_of_singleton in Hc as ->.
Qed.

Lemma split_snoc_sep (sep : N) (s : PyStr.t) :
  PyStr.split sep (s ++ [sep]) = (PyStr.split sep s ++ [[]])%list.
Proof.
  induction s as [|a s IH]; simpl.
  - by rewrite N.eqb_refl.
  - rewrite IH. destruct (a =? sep)%N; [done |].
    by destruct (split_cons sep s) as (piece & pieces & ->).
Qed.

Lemma sentences_of_snoc_dot (text : PyStr.t) :
  sentences_of (text ++ [PyStr.DOT]) = sentences_of text.
Proof.
  unfold sentences_of, PyStr.replace.
  rewrite fmap_app. change ((λ c, if (c =? PyStr.NL)%N then PyStr.SPACE else c)
                              <$> [PyStr.DOT]) with [PyStr.DOT].
  rewrite split_snoc_sep, List.filter_app. simpl. by rewrite app_nil_r.
Qed.

(** X22: a dot added at the end of the text changes nothing: the summary
    and the number of sentences used are the same. *)
Theorem summary_ignores_final_dot (t : PyStr.t) (m : Z) :
  ai_summary {| text := t ++ [PyStr.DOT]; max_sentences := m |}
  = ai_summary {| text := t; max_sentences := m |}.
Proof.
  unfold ai_summary. cbn [text max_sentences].
  by rewrite sentences_of_snoc_dot.
Qed.

(** X23: with a negative [max_sentences] the summary leaves out that many
    sentences from the end, but [sentences_used] is not the number of
    sentences in the summary: it is [max_sentences] itself, a negative
    number. *)
Theorem summary_negative_max (p : SummaryRequest) :
  max_sentences p < 0 →
  ∃ r, ai_summary p = Ok r
       ∧ sentences_used r = max_sentences p
       ∧ summary r
         = (PyStr.join (PyStr.of_string ". ")
              (take (sentence_count (text p) - Z.to_nat (- max_sentences p))
                 (sentences_of (text p)))
            ++ if decide (sentence_count (text p) = 0%nat) then []
               else PyStr.of_string ".")%list.
Proof.
  intros Hneg. eexists. split; [reflexivity |]. cbn [summary sentences_used].
  rewrite <- sentences_of_length. split; [lia |].
  unfold slice_to. destruct (Z.leb_spec 0 (max_sentences p)); [lia |].
  f_equal.
  - do 2 f_equal. lia.
  - by destruct (sentences_of (text p)).
Qed.

Lemma summary_negative_max_witness :
  let p := {| text := PyStr.of_string "One. Two. Three"; max_sentences := -1 |} in
  max_sentences p < 0
  ∧ ai_summary p
    = Ok {| summary := PyStr.of_string "One. Two."; sentences_used := -1 |}
  ∧ ∃ r, ai_summary p = Ok r ∧ sentences_used r = max_sentences p.
Proof.
  intros p.
  assert (Hneg : max_sentences p < 0) by (by vm_compute).
  split; [exact Hneg |]. split; [vm_compute; reflexivity |].
  destruct (summary_negative_max p Hneg) as (r & Hr & Hused & _).
  by exists r.
Defined.

(** ** Dots in a summary *)

Lemma dots_app (a b : PyStr.t) : dots (a ++ b) = (dots a + dots b)%nat.
Proof. unfold dots. by rewrite List.filter_app, length_app. Qed.

Lemma dots_none (s : PyStr.t) : (∀ c, c ∈ s → c ≠ PyStr.DOT) → dots s = 0%nat.
Proof.
  unfold dots. induction s as [|a s IH]; intros Hs; simpl; [done |].
  destruct (N.eqb_spec a PyStr.DOT) as [-> | _].
  - by destruct (Hs PyStr.DOT (list_elem_of_here _ _)).
  - apply IH. intros c Hc. apply Hs. by right.
Qed.

Lemma dots_tidy (s : PyStr.t) : tidy s → dots s = 0%nat.
Proof.
  intros (_ & _ & _ & Hchars). apply dots_none. intros c Hc. by destruct (Hchars c Hc).
Qed.

Lemma dots_join (l : list PyStr.t) :
  (∀ s, s ∈ l → tidy s) →
  dots (PyStr.join (PyStr.of_string ". ") l) = (length l - 1)%nat.
Proof.
  induction l as [|p l IH]; intros Hl; [done |].
  destruct l as [|q l].
  - simpl. apply dots_tidy, Hl. left.
  - change (PyStr.join (PyStr.of_string ". ") (p :: q :: l))
      with (p ++ PyStr.of_string ". " ++ PyStr.join (PyStr.of_string ". ") (q :: l))%list.
    rewrite !dots_app, IH by (intros s Hs; apply Hl; by right).
    rewrite (dots_tidy p) by (apply Hl; left).
    change (dots (PyStr.of_string ". ")) with 1%nat. simpl. lia.
Qed.

(** X24: when at least one sentence is used, the summary holds exactly as
    many dots as [sentences_used] says: one after each sentence and none
    inside. *)
Theorem summary_dots_count_sentences (p : SummaryRequest) (r : SummaryResponse) :
  ai_summary p = Ok r →
  1 ≤ sentences_used r →
  Z.of_nat (dots (summary r)) = sentences_used r.
Proof.
  intros [= <-]. cbn [summary sentences_used]. intros Hused.
  assert (Hm : 1 ≤ max_sentences p) by lia.
  assert (Hn : (1 ≤ length (sentences_of (text p)))%nat) by lia.
  unfold slice_to. destruct (Z.leb_spec 0 (max_sentences p)); [| lia].
  rewrite dots_app, dots_join.
  - rewrite length_take.
    destruct (sentences_of (text p)) as [|s ss]; [simpl in Hn; lia |].
    change (dots (PyStr.of_string ".")) with 1%nat.
    cbn [length] in *. lia.
  - intros s Hs. apply (sentences_of_tidy (text p)). by eapply subseteq_take.
Qed.

Lemma summary_dots_count_sentences_witness :
  let p := {| text := PyStr.of_string "One. Two.  . Three"; max_sentences := 2 |} in
  let r := {| summary := PyStr.of_string "One. Two."; sentences_used := 2 |} in
  ai_summary p = Ok r
  ∧ 1 ≤ sentences_used r
  ∧ Z.of_nat (dots (summary r)) = sentences_used r.
Proof.
  intros p r.
  assert (Hr : ai_summary p = Ok r) by (vm_compute; reflexivity).
  assert (Hused : 1 ≤ sentences_used r) by (by vm_compute).
  split; [exact Hr |]. split; [exact Hused |].
  exact (summary_dots_count_sentences p r Hr Hused).
Defined.

(** ** Summarising a summary *)

Lemma tidy_strip (s : PyStr.t) : tidy s → PyStr.strip s = s.
Proof.
  intros (_ & Hl & Hr & _). unfold PyStr.strip, PyStr.rstrip.
  by rewrite Hl, Hr, rev_involutive.
Qed.

Lemma tidy_strip_space (s : PyStr.t) : tidy s → PyStr.strip (PyStr.SPACE :: s) = s.
Proof.
  intros Hs. unfold PyStr.strip.
  change (PyStr.lstrip (PyStr.SPACE :: s)) with (PyStr.lstrip s).
  by apply tidy_strip.
Qed.

Lemma replace_id (s : PyStr.t) :
  (∀ c, c ∈ s → c ≠ PyStr.NL) → PyStr.replace PyStr.NL PyStr.SPACE s = s.
Proof.
  unfold PyStr.replace. induction s as [|a s IH]; intros Hs; [done |].
  cbn [fmap list_fmap]. cbn [fmap] in IH.
  rewrite IH by (intros c Hc; apply Hs; by right).
  destruct (N.eqb_spec a PyStr.NL) as [-> | _]; [| done].
  by destruct (Hs PyStr.NL (list_elem_of_here _ _)).
Qed.

Lemma split_app_no_sep (sep : N) (s rest : PyStr.t) :
  (∀ c, c ∈ s → c ≠ sep) →
  PyStr.split sep (s ++ sep :: rest) = s :: PyStr.split sep rest.
Proof.
  induction s as [|a s IH]; intros Hs; simpl.
  - by rewrite N.eqb_refl.
  - rewrite IH by (intros c Hc; apply Hs; by right).
    destruct (N.eqb_spec a sep) as [-> | _]; [| done].
    by destruct (Hs sep (list_elem_of_here _ _)).
Qed.

Lemma split_join_tidy (ss : list PyStr.t) (pre s : PyStr.t) :
  (∀ c, c ∈ pre → c ≠ PyStr.DOT) →
  (∀ s', s' ∈ s :: ss → tidy s') →
  PyStr.split PyStr.DOT
    (pre ++ PyStr.join (PyStr.of_string ". ") (s :: ss) ++ [PyStr.DOT])
  = ((pre ++ s) :: ((λ s', PyStr.SPACE :: s') <$> ss) ++ [[]])%list.
Proof.
  revert pre s. induction ss as [|s2 ss IH]; intros pre s Hpre Hall.
  - cbn [PyStr.join fmap list_fmap app].
    rewrite app_assoc, split_app_no_sep; [done |].
    intros c [Hc | Hc]%elem_of_app; [by apply Hpre |].
    destruct (Hall s (list_elem_of_here _ _)) as (_ & _ & _ & Hchars).
    by destruct (Hchars c Hc).
  - change (PyStr.join (PyStr.of_string ". ") (s :: s2 :: ss))
      with (s ++ PyStr.DOT :: [PyStr.SPACE]
              ++ PyStr.join (PyStr.of_string ". ") (s2 :: ss))%list.
    rewrite <- !app_assoc. rewrite (app_assoc pre s).
    cbn [app]. rewrite split_app_no_sep.
    + change (PyStr.SPACE :: PyStr.join (PyStr.of_string ". ") (s2 :: ss) ++ [PyStr.DOT])%list
        with ([PyStr.SPACE] ++ PyStr.join (PyStr.of_string ". ") (s2 :: ss)
                ++ [PyStr.DOT])%list.
      rewrite IH; [done | |].
      * intros c ->%list_elem_of_singleton. done.
      * intros s' Hs'. apply Hall. by right.
    + intros c [Hc | Hc]%elem_of_app; [by apply Hpre |].
      destruct (Hall s (list_elem_of_here _ _)) as (_ & _ & _ & Hchars).
      by destruct (Hchars c Hc).
Qed.

Lemma strip_spaced_tidy (ss : list PyStr.t) :
  (∀ s, s ∈ ss → tidy s) →
  PyStr.strip <$>
    List.filter (λ s, PyStr.truth (PyStr.strip s))
      (((λ s', PyStr.SPACE :: s') <$> ss) ++ [[]])
  = ss.
Proof.
  induction ss as [|s ss IH]; intros Hall; [done |].
  cbn [fmap list_fmap app List.filter]. cbn [fmap] in IH.
  rewrite (tidy_strip_space s) by (apply Hall; left).
  destruct (Hall s (list_elem_of_here _ _)) as (Hne & _).
  destruct s as [|a s]; [done |]. cbn [PyStr.truth]. rewrite fmap_cons.
  rewrite (tidy_strip_space (a :: s)) by (apply Hall; left).
  f_equal. apply IH. intros s' Hs'. apply Hall. by right.
Qed.

(** A summary made of tidy sentences is cut back into these sentences. *)
Lemma sentences_of_summary (l : list PyStr.t) :
  l ≠ [] → (∀ s, s ∈ l → tidy s) →
  sentences_of (PyStr.join (PyStr.of_string ". ") l ++ PyStr.of_string ".") = l.
Proof.
  intros Hne Hall. destruct l as [|s ss]; [done |].
  change (PyStr.of_string ".") with [PyStr.DOT].
  unfold sentences_of. rewrite replace_id.
  - assert (Hsplit := split_join_tidy ss [] s).
    change ([] ++ PyStr.join (PyStr.of_string ". ") (s :: ss) ++ [PyStr.DOT])%list
      with (PyStr.join (PyStr.of_string ". ") (s :: ss) ++ [PyStr.DOT])%list in Hsplit.
    rewrite Hsplit; [| by intros c ?%elem_of_nil | done].
    cbn [app List.filter fmap list_fmap].
    rewrite (tidy_strip s) by (apply Hall; left).
    destruct (Hall s (list_elem_of_here _ _)) as (Hs & _).
    destruct s as [|a s]; [done |]. cbn [PyStr.truth]. rewrite fmap_cons.
    rewrite (tidy_strip (a :: s)) by (apply Hall; left).
    f_equal. apply strip_spaced_tidy. intros s' Hs'. apply Hall. by right.
  - intros c [Hc | ->%list_elem_of_singleton]%elem_of_app; [| done].
    apply join_elem in Hc as [Hc | (s' & Hs' & Hc)].
    + change (PyStr.of_string ". ") with [PyStr.DOT; PyStr.SPACE] in Hc.
      rewrite !elem_of_cons, elem_of_nil in Hc.
      by destruct Hc as [-> | [-> | []]].
    + destruct (Hall s' Hs') as (_ & _ & _ & Hchars). by destruct (Hchars c Hc).
Qed.

(** X25: with [max_sentences] at least 1, summarising a summary gives it
    back: the same summary and the same number of sentences used. *)
Theorem summary_is_fixed_point (p : SummaryRequest) (r : SummaryResponse) :
  1 ≤ max_sentences p →
  ai_summary p = Ok r →
  ai_summary {| text := summary r; max_sentences := max_sentences p |} = Ok r.
Proof.
  intros Hm [= <-]. unfold ai_summary.
  cbn [text max_sentences summary sentences_used].
  rewrite !slice_to_nonneg by lia.
  destruct (sentences_of (text p)) as [|s ss] eqn:Hsent.
  - rewrite take_nil. cbn [PyStr.join app].
    change (sentences_of []) with ([] : list PyStr.t). by rewrite take_nil.
  - cbv iota.
    set (l := take (Z.to_nat (max_sentences p)) (s :: ss)).
    assert (Hl : l ≠ []).
    { unfold l. destruct (Z.to_nat (max_sentences p)) eqn:Hnat; [lia | done]. }
    assert (Hall : ∀ s', s' ∈ l → tidy s').
    { intros s' Hs'. apply (sentences_of_tidy (text p)). rewrite Hsent.
      by eapply subseteq_take. }
    assert (Hlen : length l = Nat.min (Z.to_nat (max_sentences p)) (length (s :: ss))).
    { unfold l. apply length_take. }
    rewrite (sentences_of_summary l Hl Hall).
    rewrite (take_ge l) by lia.
    destruct l as [|s' l']; [done |].
    cbv iota. f_equal. f_equal. lia.
Qed.

Lemma summary_is_fixed_point_witness :
  let p := {| text := PyStr.of_string " One
two.  . Three .Four"; max_sentences := 2 |} in
  let r := {| summary := PyStr.of_string "One two. Three."; sentences_used := 2 |} in
  1 ≤ max_sentences p
  ∧ ai_summary p = Ok r
  ∧ ai_summary {| text := summary r; max_sentences := max_sentences p |} = Ok r.
Proof.
  intros p r.
  assert (Hm : 1 ≤ max_sentences p) by (by vm_compute).
  assert (Hr : ai_summary p = Ok r) by (vm_compute; reflexivity).
  split; [exact Hm |]. split; [exact Hr |].
  exact (summary_is_fixed_point p r Hm Hr).
Defined.
